(** * JnbRelay: a TLS-terminating single-upstream reverse proxy (main.go)

    Shallow embedding of [parseFlags], of the head of [main] and of the
    three hooks that [main] installs on the reverse proxy ([Director],
    [ModifyResponse], [ErrorHandler]), together with the pieces of the Go
    standard library they run in: [strings], [net/url], [fmt], the header
    canonicalisation of [net/textproto], the headers of [net/http],
    [path/filepath.Ext], [mime.TypeByExtension], and the handler of
    [net/http/httputil.ReverseProxy] with what it calls.

    Go strings are byte sequences; they are modelled as [string], whose
    characters are the 256 values of [ascii]. *)

From Stdlib Require Import ZArith NArith Bool Ascii String List Lia.
From Stdlib Require Import Numbers.DecimalString.
From stdpp Require Import base option gmap strings list fin_maps.

Local Open Scope string_scope.
Local Open Scope Z_scope.

(* ===================================================================== *)
(** ** Bytes *)
(* ===================================================================== *)

Module Char.

Definition code (c : ascii) : N := N_of_ascii c.

(** [lo <= c && c <= hi] on byte values. *)
Definition between (lo hi c : ascii) : bool :=
  (code lo <=? code c)%N && (code c <=? code hi)%N.

Definition is_lower (c : ascii) : bool := between "a" "z" c.
Definition is_upper (c : ascii) : bool := between "A" "Z" c.
Definition is_digit (c : ascii) : bool := between "0" "9" c.
Definition is_alpha (c : ascii) : bool := is_lower c || is_upper c.
Definition is_alnum (c : ascii) : bool := is_alpha c || is_digit c.

(** The double quote character, byte 0x22. *)
Definition dquote : ascii := ascii_of_N 34%N.

(** [toLower = 'a' - 'A'] in net/textproto. *)
Definition toLower : N := 32.

Definition to_upper (c : ascii) : ascii :=
  if is_lower c then ascii_of_N (code c - toLower) else c.
Definition to_lower (c : ascii) : ascii :=
  if is_upper c then ascii_of_N (code c + toLower) else c.

(** Membership of a byte in a literal set of bytes (a Go [switch c]
    with a list of character cases). *)
Fixpoint one_of (set : string) (c : ascii) : bool :=
  match set with
  | EmptyString => false
  | String d set' => Ascii.eqb c d || one_of set' c
  end.

End Char.

(* ===================================================================== *)
(** ** Package strings *)
(* ===================================================================== *)

Module strings.

Fixpoint HasPrefix (s prefix : string) {struct prefix} : bool :=
  match prefix, s with
  | EmptyString, _ => true
  | String p prefix', String c s' => Ascii.eqb c p && HasPrefix s' prefix'
  | String _ _, EmptyString => false
  end.

(** [s[i:]] and [s[:i]] for [0 <= i <= len(s)]. *)
Fixpoint drop (n : nat) (s : string) : string :=
  match n, s with
  | O, _ => s
  | S n', String _ s' => drop n' s'
  | S _, EmptyString => EmptyString
  end.

Fixpoint take (n : nat) (s : string) : string :=
  match n, s with
  | O, _ => EmptyString
  | S n', String c s' => String c (take n' s')
  | S _, EmptyString => EmptyString
  end.

Definition slice_from (s : string) (i : Z) : string := drop (Z.to_nat i) s.
Definition slice_to (s : string) (i : Z) : string := take (Z.to_nat i) s.

Definition len (s : string) : Z := Z.of_nat (String.length s).

(** Index of the first instance of [substr] in [s], or -1. *)
Fixpoint Index (s substr : string) : Z :=
  if HasPrefix s substr then 0
  else match s with
       | EmptyString => -1
       | String _ s' =>
           let i := Index s' substr in
           if i <? 0 then -1 else i + 1
       end.

(** Index of the last instance of [substr] in [s], or -1. *)
Fixpoint LastIndex (s substr : string) : Z :=
  match s with
  | EmptyString => if HasPrefix s substr then 0 else -1
  | String _ s' =>
      let i := LastIndex s' substr in
      if 0 <=? i then i + 1
      else if HasPrefix s substr then 0 else -1
  end.

Definition Contains (s substr : string) : bool := 0 <=? Index s substr.

(** [Cut] slices [s] around the first instance of [sep]. *)
Definition Cut (s sep : string) : string * string * bool :=
  let i := Index s sep in
  if 0 <=? i then (slice_to s i, slice_from s (i + len sep), true)
  else (s, "", false).

(** [Count(s, substr)] for a one-byte [substr]. *)
Fixpoint CountByte (s : string) (c : ascii) : Z :=
  match s with
  | EmptyString => 0
  | String d s' => (if Ascii.eqb d c then 1 else 0) + CountByte s' c
  end.

Fixpoint last_byte (s : string) : option ascii :=
  match s with
  | EmptyString => None
  | String c EmptyString => Some c
  | String _ s' => last_byte s'
  end.

(** [HasSuffix(s, suffix)] for a one-byte [suffix]. *)
Definition HasSuffixByte (s : string) (c : ascii) : bool :=
  match last_byte s with
  | Some d => Ascii.eqb d c
  | None => false
  end.

(** [ToLower] on ASCII input (the only use below is on a URL scheme,
    which [getScheme] restricts to ASCII letters, digits, [+-.]). *)
Fixpoint ToLower (s : string) : string :=
  match s with
  | EmptyString => EmptyString
  | String c s' => String (Char.to_lower c) (ToLower s')
  end.

Fixpoint all (p : ascii -> bool) (s : string) : bool :=
  match s with
  | EmptyString => true
  | String c s' => p c && all p s'
  end.

(** [Split(s, sep)] for a one-byte [sep]: the pieces between the
    separators; an empty [s] gives one empty piece. *)
Fixpoint SplitByte (s : string) (sep : ascii) : list string :=
  match s with
  | EmptyString => [""]
  | String c s' =>
      match SplitByte s' sep with
      | piece :: pieces =>
          if Ascii.eqb c sep then "" :: piece :: pieces
          else String c piece :: pieces
      | [] => [String c ""]
      end
  end.

(** [Join(elems, sep)] *)
Fixpoint Join (elems : list string) (sep : string) : string :=
  match elems with
  | [] => ""
  | [x] => x
  | x :: elems' => x +:+ sep +:+ Join elems' sep
  end.

(** The two trimming loops [for len(s) > 0 && p(s[0]) { s = s[1:] }] and
    [for len(s) > 0 && p(s[len(s)-1]) { s = s[:len(s)-1] }]. *)
Fixpoint trim_front (p : ascii -> bool) (s : string) : string :=
  match s with
  | EmptyString => EmptyString
  | String c s' => if p c then trim_front p s' else s
  end.

Fixpoint trim_back (p : ascii -> bool) (s : string) : string :=
  match s with
  | EmptyString => EmptyString
  | String c s' =>
      match trim_back p s' with
      | EmptyString => if p c then EmptyString else String c EmptyString
      | rest => String c rest
      end
  end.

End strings.

(* ===================================================================== *)
(** ** Package net/url: [Parse]

    Follows net/url of Go 1.21.  A parse error is [None].  The record
    keeps the fields of [url.URL] except [RawPath] and [RawFragment],
    which are encoding hints recomputed by [EscapedPath] and never read
    by this program; the errors raised while setting them are kept. *)
(* ===================================================================== *)

Module url.

Record Userinfo := mkUserinfo {
  username : string;
  password : string;
  passwordSet : bool
}.

Record URL := mkURL {
  Scheme : string;
  Opaque : string;
  User : option Userinfo;
  Host : string;
  Path : string;
  OmitHost : bool;
  ForceQuery : bool;
  RawQuery : string;
  Fragment : string
}.

(** [new(URL)]: every field at its zero value. *)
Definition zero : URL := mkURL "" "" None "" "" false false "" "".

Inductive encoding :=
| encodePath | encodePathSegment | encodeHost | encodeZone
| encodeUserPassword | encodeQueryComponent | encodeFragment.

Definition is_host_mode (mode : encoding) : bool :=
  match mode with encodeHost | encodeZone => true | _ => false end.

Definition ishex (c : ascii) : bool :=
  Char.is_digit c || Char.between "a" "f" c || Char.between "A" "F" c.

Definition unhex (c : ascii) : N :=
  if Char.is_digit c then Char.code c - Char.code "0"
  else if Char.between "a" "f" c then Char.code c - Char.code "a" + 10
  else if Char.between "A" "F" c then Char.code c - Char.code "A" + 10
  else 0.

(** [shouldEscape(c, encodeHost)]: the only mode in which [unescape]
    consults it.  Unreserved characters, the sub-delimiters allowed in a
    reg-name, [:] (for the port), [[ ]] (IPv6 literals), [< >] and
    the double quote stay; every other byte must be escaped. *)
Definition shouldEscape_host (c : ascii) : bool :=
  if Char.is_alnum c then false
  else if Char.one_of (String Char.dquote "!$&'()*+,;=:[]<>") c then false
  else if Char.one_of "-_.~" c then false
  else true.

Definition hex_byte (a b : ascii) : ascii :=
  ascii_of_N (N.lor (N.shiftl (unhex a) 4) (unhex b)).

(** [unescape(s, mode)]: Go validates in a first pass and decodes in a
    second; since an error discards the output, one pass that fails at
    the first offending byte returns the same result. *)
Fixpoint unescape (s : string) (mode : encoding) : option string :=
  match s with
  | EmptyString => Some EmptyString
  | String "%" rest =>
      match rest with
      | String a (String b rest') =>
          if negb (ishex a && ishex b) then None
          else if match mode with
                  | encodeHost =>
                      (unhex a <? 8)%N
                      && negb (Ascii.eqb a "2" && Ascii.eqb b "5")
                  | encodeZone =>
                      negb (Ascii.eqb a "2" && Ascii.eqb b "5")
                      && negb (Ascii.eqb (hex_byte a b) " ")
                      && shouldEscape_host (hex_byte a b)
                  | _ => false
                  end
               then None
               else option_map (String (hex_byte a b)) (unescape rest' mode)
      | _ => None
      end
  | String "+" rest =>
      option_map
        (String (match mode with encodeQueryComponent => " "%char
                 | _ => "+"%char end))
        (unescape rest mode)
  | String c rest =>
      if is_host_mode mode && (Char.code c <? 128)%N && shouldEscape_host c
      then None
      else option_map (String c) (unescape rest mode)
  end.

Definition stringContainsCTLByte (s : string) : bool :=
  negb (strings.all
          (fun b => negb ((Char.code b <? Char.code " ")%N
                          || (Char.code b =? 127)%N)) s).

(** [getScheme]: the loop over [rawURL], carrying the index [i]; the
    result is [(scheme, rest)]. *)
Fixpoint getScheme_from (rawURL s : string) (i : Z)
  : option (string * string) :=
  match s with
  | EmptyString => Some ("", rawURL)
  | String c s' =>
      if Char.is_alpha c then getScheme_from rawURL s' (i + 1)
      else if Char.is_digit c || Char.one_of "+-." c then
        if i =? 0 then Some ("", rawURL)
        else getScheme_from rawURL s' (i + 1)
      else if Ascii.eqb c ":" then
        if i =? 0 then None
        else Some (strings.slice_to rawURL i, strings.slice_from rawURL (i + 1))
      else Some ("", rawURL)
  end.

Definition getScheme (rawURL : string) : option (string * string) :=
  getScheme_from rawURL rawURL 0.

Definition validOptionalPort (port : string) : bool :=
  match port with
  | EmptyString => true
  | String c digits => Ascii.eqb c ":" && strings.all Char.is_digit digits
  end.

Definition validUserinfo (s : string) : bool :=
  strings.all
    (fun r => Char.is_upper r || Char.is_lower r || Char.is_digit r
              || Char.one_of "-._:~!$&'()*+,;=%@" r) s.

(** [parseHost]: an IP literal in brackets (with an optional RFC 6874
    zone), or a name followed by an optional port. *)
Definition parseHost (host : string) : option string :=
  if strings.HasPrefix host "[" then
    let i := strings.LastIndex host "]" in
    if i <? 0 then None
    else
      let colonPort := strings.slice_from host (i + 1) in
      if negb (validOptionalPort colonPort) then None
      else
        let zone := strings.Index (strings.slice_to host i) "%25" in
        if 0 <=? zone then
          match unescape (strings.slice_to host zone) encodeHost with
          | None => None
          | Some host1 =>
              match unescape (strings.slice_from (strings.slice_to host i) zone)
                      encodeZone with
              | None => None
              | Some host2 =>
                  match unescape (strings.slice_from host i) encodeHost with
                  | None => None
                  | Some host3 => Some (host1 +:+ host2 +:+ host3)
                  end
              end
          end
        else unescape host encodeHost
  else
    let i := strings.LastIndex host ":" in
    if negb (i =? -1)
       && negb (validOptionalPort (strings.slice_from host i))
    then None
    else unescape host encodeHost.

Definition parseAuthority (authority : string)
  : option (option Userinfo * string) :=
  let i := strings.LastIndex authority "@" in
  match (if i <? 0 then parseHost authority
         else parseHost (strings.slice_from authority (i + 1))) with
  | None => None
  | Some host =>
      if i <? 0 then Some (None, host)
      else
        let userinfo := strings.slice_to authority i in
        if negb (validUserinfo userinfo) then None
        else if negb (strings.Contains userinfo ":") then
          match unescape userinfo encodeUserPassword with
          | None => None
          | Some u => Some (Some (mkUserinfo u "" false), host)
          end
        else
          let '(username, password, _) := strings.Cut userinfo ":" in
          match unescape username encodeUserPassword,
                unescape password encodeUserPassword with
          | Some u, Some p => Some (Some (mkUserinfo u p true), host)
          | _, _ => None
          end
  end.

(** [parse(rawURL, viaRequest)]. *)
Definition parse (rawURL : string) (viaRequest : bool) : option URL :=
  if stringContainsCTLByte rawURL then None
  else if String.eqb rawURL "" && viaRequest then None
  else if String.eqb rawURL "*" then
    Some (mkURL "" "" None "" "*" false false "" "")
  else
    match getScheme rawURL with
    | None => None
    | Some (scheme0, rest0) =>
        let scheme := strings.ToLower scheme0 in
        let '(rest, forceQuery, rawQuery) :=
          if strings.HasSuffixByte rest0 "?"
             && (strings.CountByte rest0 "?" =? 1)
          then (strings.slice_to rest0 (strings.len rest0 - 1), true, "")
          else let '(r, q, _) := strings.Cut rest0 "?" in (r, false, q) in
        if negb (strings.HasPrefix rest "/") && negb (String.eqb scheme "")
        then Some (mkURL scheme rest None "" "" false forceQuery rawQuery "")
        else if negb (strings.HasPrefix rest "/") && viaRequest then None
        else if negb (strings.HasPrefix rest "/")
                && strings.Contains (fst (fst (strings.Cut rest "/"))) ":"
        then None
        else
          let authorityPart :=
            if (negb (String.eqb scheme "")
                || negb viaRequest && negb (strings.HasPrefix rest "///"))
               && strings.HasPrefix rest "//"
            then
              let authority0 := strings.slice_from rest 2 in
              let i := strings.Index authority0 "/" in
              let '(authority, rest') :=
                if 0 <=? i
                then (strings.slice_to authority0 i,
                      strings.slice_from authority0 i)
                else (authority0, "") in
              match parseAuthority authority with
              | None => None
              | Some (user, host) => Some (user, host, false, rest')
              end
            else if negb (String.eqb scheme "") && strings.HasPrefix rest "/"
            then Some (None, "", true, rest)
            else Some (None, "", false, rest) in
          match authorityPart with
          | None => None
          | Some (user, host, omitHost, rest') =>
              (* setPath *)
              match unescape rest' encodePath with
              | None => None
              | Some path =>
                  Some (mkURL scheme "" user host path omitHost
                          forceQuery rawQuery "")
              end
          end
    end.

(** [Parse(rawURL)]: cut off the fragment, parse the rest, then set the
    fragment. *)
Definition Parse (rawURL : string) : option URL :=
  let '(u, frag, _) := strings.Cut rawURL "#" in
  match parse u false with
  | None => None
  | Some url =>
      if String.eqb frag "" then Some url
      else
        (* setFragment *)
        match unescape frag encodeFragment with
        | None => None
        | Some f =>
            Some (mkURL (Scheme url) (Opaque url) (User url) (Host url)
                    (Path url) (OmitHost url) (ForceQuery url)
                    (RawQuery url) f)
        end
  end.

(** Field assignments [u.Scheme = s] and [u.Host = h]. *)
Definition set_Scheme (s : string) (u : URL) : URL :=
  mkURL s (Opaque u) (User u) (Host u) (Path u)
    (OmitHost u) (ForceQuery u) (RawQuery u) (Fragment u).
Definition set_Host (h : string) (u : URL) : URL :=
  mkURL (Scheme u) (Opaque u) (User u) h (Path u)
    (OmitHost u) (ForceQuery u) (RawQuery u) (Fragment u).

End url.

(* ===================================================================== *)
(** ** Package fmt: the [%d] verb *)
(* ===================================================================== *)

Module fmt.

(** [Sprintf("%d", n)]: decimal digits, with a leading minus sign for a
    negative number. *)
Definition Sprintd (n : Z) : string := NilZero.string_of_int (Z.to_int n).

End fmt.

(* ===================================================================== *)
(** ** Package net/textproto: canonical header keys *)
(* ===================================================================== *)

Module textproto.

(** The token bytes of RFC 7230. *)
Definition validHeaderFieldByte (c : ascii) : bool :=
  Char.is_alnum c || Char.one_of "!#$%&'*+-.^_`|~" c.

(** The rewriting loop of [canonicalMIMEHeaderKey]: upper case for the
    first letter and after each dash, lower case elsewhere. *)
Fixpoint canonical_loop (upper : bool) (a : string) : string :=
  match a with
  | EmptyString => EmptyString
  | String c a' =>
      let c' :=
        if upper && Char.is_lower c then Char.to_upper c
        else if negb upper && Char.is_upper c then Char.to_lower c
        else c in
      String c' (canonical_loop (Ascii.eqb c' "-") a')
  end.

(** [canonicalMIMEHeaderKey]: a key holding a byte that is neither a
    token byte nor a space is returned as it is; so is one with a
    space ([noCanon]); any other key is rewritten. *)
Definition canonicalMIMEHeaderKey (a : string) : string :=
  if negb (strings.all
             (fun c => validHeaderFieldByte c || Ascii.eqb c " ") a)
  then a
  else if negb (strings.all validHeaderFieldByte a) (* noCanon *) then a
  else canonical_loop true a.

(** The quick check of [CanonicalMIMEHeaderKey]: scan [rest], the
    unread part of [s]. *)
Fixpoint quick_check (upper : bool) (rest s : string) : string :=
  match rest with
  | EmptyString => s
  | String c rest' =>
      if negb (validHeaderFieldByte c) then s
      else if upper && Char.is_lower c then canonicalMIMEHeaderKey s
      else if negb upper && Char.is_upper c then canonicalMIMEHeaderKey s
      else quick_check (Ascii.eqb c "-") rest' s
  end.

Definition CanonicalMIMEHeaderKey (s : string) : string :=
  quick_check true s s.

(** [isASCIISpace]: space, tab, line feed, carriage return. *)
Definition isASCIISpace (b : ascii) : bool :=
  Ascii.eqb b " " || Ascii.eqb b (ascii_of_N 9%N)
  || Ascii.eqb b (ascii_of_N 10%N) || Ascii.eqb b (ascii_of_N 13%N).

(** [TrimString(s)]: [s] without leading and trailing ASCII space. *)
Definition TrimString (s : string) : string :=
  strings.trim_back isASCIISpace (strings.trim_front isASCIISpace s).

End textproto.

(* ===================================================================== *)
(** ** Package path/filepath (Unix) and package mime *)
(* ===================================================================== *)

Module filepath.

(** [os.IsPathSeparator] on Unix. *)
Definition IsPathSeparator (c : ascii) : bool := Ascii.eqb c "/".

(** The loop of [Ext]: [i] is one more than Go's loop index, which runs
    from [len(path)-1] down to 0 and stops at a path separator. *)
Fixpoint Ext_loop (path : string) (i : nat) : string :=
  match i with
  | O => ""
  | S j =>
      match String.get j path with
      | None => ""
      | Some c =>
          if IsPathSeparator c then ""
          else if Ascii.eqb c "." then strings.drop j path
          else Ext_loop path j
      end
  end.

Definition Ext (path : string) : string :=
  Ext_loop path (String.length path).

End filepath.

Module mime.

(** Go's built-in table ([builtinTypesLower]), before the MIME files of
    the host are merged into it. *)
Definition builtinTypesLower : list (string * string) :=
  [ (".avif", "image/avif");
    (".css", "text/css; charset=utf-8");
    (".gif", "image/gif");
    (".htm", "text/html; charset=utf-8");
    (".html", "text/html; charset=utf-8");
    (".jpeg", "image/jpeg");
    (".jpg", "image/jpeg");
    (".js", "text/javascript; charset=utf-8");
    (".json", "application/json");
    (".mjs", "text/javascript; charset=utf-8");
    (".pdf", "application/pdf");
    (".png", "image/png");
    (".svg", "image/svg+xml");
    (".wasm", "application/wasm");
    (".webp", "image/webp");
    (".xml", "text/xml; charset=utf-8") ].

Fixpoint assoc (k : string) (l : list (string * string)) : option string :=
  match l with
  | [] => None
  | (k', v) :: l' => if String.eqb k k' then Some v else assoc k l'
  end.

(** [TypeByExtension] over the built-in table alone, for ASCII
    extensions: a case-sensitive lookup, then one on the lower-cased
    extension.  The built-in table has lower-case keys only, so both
    lookups read the same list. *)
Definition builtin_TypeByExtension (ext : string) : string :=
  match assoc ext builtinTypesLower with
  | Some v => v
  | None => default "" (assoc (strings.ToLower ext) builtinTypesLower)
  end.

End mime.

(* ===================================================================== *)
(** ** Package net/http: headers, requests, responses *)
(* ===================================================================== *)

Module http.

(** [type Header map[string][]string].  A missing key reads as the nil
    slice, which [append] and [len] treat as the empty one. *)
Abbreviation Header := (gmap string (list string)).

Definition values (h : Header) (key : string) : list string :=
  default [] (h !! key).

Definition Add (h : Header) (key value : string) : Header :=
  let key := textproto.CanonicalMIMEHeaderKey key in
  <[key := (values h key ++ [value])%list]> h.

Definition Set_ (h : Header) (key value : string) : Header :=
  <[textproto.CanonicalMIMEHeaderKey key := [value]]> h.

Definition Get (h : Header) (key : string) : string :=
  match values h (textproto.CanonicalMIMEHeaderKey key) with
  | [] => ""
  | v :: _ => v
  end.

Definition StatusOK : Z := 200.
Definition StatusBadGateway : Z := 502.

Module Request.
Record t := mk {
  Method : string;
  URL : url.URL;
  Proto : string;
  Header : gmap string (list string);
  Body : string;
  ContentLength : Z;
  Host : string;
  RemoteAddr : string;
  RequestURI : string
}.

Definition set_URL (u : url.URL) (r : t) : t :=
  mk (Method r) u (Proto r) (Header r) (Body r) (ContentLength r)
     (Host r) (RemoteAddr r) (RequestURI r).
Definition set_Host (host : string) (r : t) : t :=
  mk (Method r) (URL r) (Proto r) (Header r) (Body r) (ContentLength r)
     host (RemoteAddr r) (RequestURI r).
Definition set_Header (h : gmap string (list string)) (r : t) : t :=
  mk (Method r) (URL r) (Proto r) h (Body r) (ContentLength r)
     (Host r) (RemoteAddr r) (RequestURI r).
End Request.

Module Response.
Record t := mk {
  StatusCode : Z;
  Header : gmap string (list string);
  Body : string;
  Request : Request.t
}.

Definition set_Header (h : gmap string (list string)) (r : t) : t :=
  mk (StatusCode r) h (Body r) (Request r).
End Response.

(** [h.Del(key)] *)
Definition Del (h : Header) (key : string) : Header :=
  delete (textproto.CanonicalMIMEHeaderKey key) h.

Definition StatusSwitchingProtocols : Z := 101.

(** [http.TrailerPrefix] *)
Definition TrailerPrefix : string := "Trailer:".

End http.

(* ===================================================================== *)
(** ** Package internal/ascii *)
(* ===================================================================== *)

Module ascii.

(** [lower(b)] *)
Definition lower (b : ascii) : ascii := Char.to_lower b.

(** [EqualFold(s, t)]: equal lengths and equal bytes after [lower]. *)
Fixpoint EqualFold (s t : string) : bool :=
  match s, t with
  | EmptyString, EmptyString => true
  | String a s', String b t' => Ascii.eqb (lower a) (lower b) && EqualFold s' t'
  | _, _ => false
  end.

(** [IsPrint(s)]: every byte lies between the space and the tilde. *)
Definition IsPrint (s : string) : bool :=
  strings.all
    (fun c => negb ((Char.code c <? Char.code " ")%N
                    || (Char.code "~" <? Char.code c)%N)) s.

End ascii.

(* ===================================================================== *)
(** ** Package golang.org/x/net/http/httpguts *)
(* ===================================================================== *)

Module httpguts.

(** [isOWS(b)]: space or tab. *)
Definition isOWS (b : ascii) : bool :=
  Ascii.eqb b " " || Ascii.eqb b (ascii_of_N 9%N).

Definition trimOWS (x : string) : string :=
  strings.trim_back isOWS (strings.trim_front isOWS x).

(** [tokenEqual(t1, t2)]: equal lengths, [t1] in ASCII, equal bytes
    after lower-casing. *)
Fixpoint tokenEqual (t1 t2 : string) : bool :=
  match t1, t2 with
  | EmptyString, EmptyString => true
  | String a t1', String b t2' =>
      (Char.code a <? 128)%N
      && Ascii.eqb (Char.to_lower a) (Char.to_lower b)
      && tokenEqual t1' t2'
  | _, _ => false
  end.

(** [headerValueContainsToken(v, token)]: one of the comma-separated
    pieces of [v], trimmed, is [token]. *)
Definition headerValueContainsToken (v token : string) : bool :=
  existsb (fun piece => tokenEqual (trimOWS piece) token)
    (strings.SplitByte v ",").

Definition HeaderValuesContainsToken (values : list string) (token : string)
  : bool :=
  existsb (fun v => headerValueContainsToken v token) values.

End httpguts.

(* ===================================================================== *)
(** ** Package net: [SplitHostPort] *)
(* ===================================================================== *)

Module net.

(** [SplitHostPort(hostport)]; [None] is an [AddrError]. *)
Definition SplitHostPort (hostport : string) : option (string * string) :=
  let i := strings.LastIndex hostport ":" in
  if i <? 0 then None (* missing port in address *)
  else
    match
      (if strings.HasPrefix hostport "[" then
         let end_ := strings.Index hostport "]" in
         if end_ <? 0 then None (* missing ']' in address *)
         else if end_ + 1 =? strings.len hostport then None
         else if end_ + 1 =? i then
           Some (strings.slice_from (strings.slice_to hostport end_) 1,
                 1, end_ + 1)
         else None
       else
         let host := strings.slice_to hostport i in
         if 0 <=? strings.Index host ":" then None (* too many colons *)
         else Some (host, 0, 0))
    with
    | None => None
    | Some (host, j, k) =>
        if 0 <=? strings.Index (strings.slice_from hostport j) "[" then None
        else if 0 <=? strings.Index (strings.slice_from hostport k) "]" then None
        else Some (host, strings.slice_from hostport (i + 1))
    end.

End net.

(* ===================================================================== *)
(** ** Package net/http/httputil: [ReverseProxy.ServeHTTP]

    The handler as Go 1.21 has it, for a proxy built the way [main]
    builds it: [Director], [ModifyResponse] and [ErrorHandler] set,
    [Rewrite], [FlushInterval] and [BufferPool] not set.

    A handler is observed through the calls it makes on what net/http
    hands it: the [ResponseWriter] ([WriteHeader] with the header map as
    it stands at the call, [Write], [Hijack]), the transport
    ([RoundTrip]) and package log.  The calls are recorded in order;
    what the server puts on the wire for them (the framing, the implicit
    status 200, the complaint about a second [WriteHeader]) belongs to
    the server and is not part of the model.

    The world around the handler is a value of [Env]: what the upstream
    answers to a request, given the requests made before; what each
    [Write] returns; and whether the connection can be taken over.  An
    answer says which 1xx responses come first, and then either the
    error of [RoundTrip] or the response: status, header, the trailer
    keys announced with the header, the reads the body yields, and the
    trailer as it stands once the body is read to its end.

    Outside the model: cancellation through the request context and
    [CloseNotifier]; [Flush] and the flush timer; the copying in both
    directions after a protocol switch; whatever [http.Transport] does
    behind one [RoundTrip] call.  A body of a 101 response is taken to
    be writable, as [http.Transport] makes it; [outreq.Form] is nil, as
    no hook parses the form; a header entry with no value stands for the
    nil slice where the source tells nil from empty; ranging over a map
    goes in the order of [map_to_list]. *)
(* ===================================================================== *)

Module httputil.

(** The errors the proxy hands to its error handler. *)
Inductive error :=
| TransportError (text : string)
    (* the error [RoundTrip] returned *)
| ModifyResponseError (text : string)
    (* the error [ModifyResponse] returned *)
| ClientInvalidProtocol (reqUpType : string)
    (* client tried to switch to invalid protocol %q *)
| BackendInvalidProtocol (resUpType : string)
    (* backend tried to switch to invalid protocol %q *)
| BackendSwitchedProtocol (resUpType reqUpType : string)
    (* backend tried to switch protocol %q when %q was requested *)
| NotHijacker
    (* can't switch protocols using non-Hijacker ResponseWriter type %T *)
| HijackFailed (text : string)
    (* Hijack failed on protocol switch: %v *).

(** What a read of the response body returns besides [nil] and
    [io.EOF]. *)
Inductive read_error :=
| Canceled                     (* context.Canceled *)
| ReadFailed (text : string).  (* any other error *)

(** The calls a handler makes, as it makes them. *)
Inductive call :=
| RoundTrip (outreq : http.Request.t)
| WriteHeader (code : Z) (header : http.Header)
| Write (data : string) (err : option string)
| Hijack
| LogLine (text : string)
| LogError (format : string) (err : error)
| LogReadError (format : string) (err : read_error).

(** The response of the upstream to one [RoundTrip]: the body yields
    the chunks of [reads] with a nil error, then [last_read] together
    with [read_err], where [None] is [io.EOF]. *)
Record Answer := mkAnswer {
  StatusCode : Z;
  Header : http.Header;
  announced : http.Header;
  reads : list string;
  last_read : string;
  read_err : option read_error;
  Trailer : http.Header
}.

(** What one [RoundTrip] brings: the 1xx responses reported through
    [Got1xxResponse], then an error or a response. *)
Record Reply := mkReply {
  informational : list (Z * http.Header);
  result : string + Answer
}.

(** What [Hijack] returns. *)
Inductive hijack_result :=
| Hijacked
| HijackNotSupported           (* http.ErrNotSupported *)
| HijackError (text : string).

(** The world outside the handler. *)
Record Env := mkEnv {
  upstream : list http.Request.t -> http.Request.t -> Reply;
  write_error : nat -> option string;
  hijack : hijack_result
}.

(** The state a handler acts on: the requests the transport was given,
    the header map of the [ResponseWriter], and the calls made so
    far. *)
Record exchange := mkExchange {
  history : list http.Request.t;
  header : http.Header;
  calls : list call
}.

(** The state at the start of a handler. *)
Definition fresh : exchange := mkExchange [] ∅ [].

Definition record (c : call) (x : exchange) : exchange :=
  mkExchange (history x) (header x) (calls x ++ [c]).

Definition set_header (h : http.Header) (x : exchange) : exchange :=
  mkExchange (history x) h (calls x).

(** [rw.WriteHeader(code)] *)
Definition rw_WriteHeader (code : Z) (x : exchange) : exchange :=
  record (WriteHeader code (header x)) x.

Definition is_Write (c : call) : bool :=
  match c with Write _ _ => true | _ => false end.

(** [rw.Write(data)]: what the n-th [Write] returns is the world's
    choice. *)
Definition rw_Write (env : Env) (data : string) (x : exchange)
  : option string * exchange :=
  let err :=
    write_error env (length (filter (fun c => is_Write c = true) (calls x))) in
  (err, record (Write data err) x).

(** How a handler ends: it returns, it panics with
    [http.ErrAbortHandler], or it returns after it took the connection
    over. *)
Inductive ending :=
| Returned
| Aborted
| Switched.

Definition hopHeaders : list string :=
  ["Connection"; "Proxy-Connection"; "Keep-Alive"; "Proxy-Authenticate";
   "Proxy-Authorization"; "Te"; "Trailer"; "Transfer-Encoding"; "Upgrade"].

(** [removeHopByHopHeaders(h)] *)
Definition removeHopByHopHeaders (h : http.Header) : http.Header :=
  let h :=
    foldl
      (fun h f =>
         foldl
           (fun h sf =>
              let sf := textproto.TrimString sf in
              if negb (String.eqb sf "") then http.Del h sf else h)
           h (strings.SplitByte f ","))
      h (http.values h "Connection") in
  foldl http.Del h hopHeaders.

(** [upgradeType(h)] *)
Definition upgradeType (h : http.Header) : string :=
  if negb (httpguts.HeaderValuesContainsToken
             (http.values h "Connection") "Upgrade")
  then ""
  else http.Get h "Upgrade".

(** [copyHeader(dst, src)]: every value of [src] is added to [dst]. *)
Definition copyHeader (dst src : http.Header) : http.Header :=
  map_fold (fun k vv d => foldl (fun d v => http.Add d k v) d vv) dst src.

Section ReverseProxy.

Variable Director : http.Request.t -> http.Request.t.
Variable ModifyResponse :
  http.Response.t -> http.Response.t * list string * option string.
Variable ErrorHandler : exchange -> http.Request.t -> error -> exchange.
Variable env : Env.

(** The outbound request, from the clone of the inbound one to the call
    of the transport; [inl] is the upgrade type the proxy refuses. *)
Definition outbound (req : http.Request.t) : string + http.Request.t :=
  let outreq := req in
  let outreq :=
    if http.Request.ContentLength req =? 0
    then http.Request.mk (http.Request.Method outreq) (http.Request.URL outreq)
           (http.Request.Proto outreq) (http.Request.Header outreq) ""
           (http.Request.ContentLength outreq) (http.Request.Host outreq)
           (http.Request.RemoteAddr outreq) (http.Request.RequestURI outreq)
    else outreq in
  let outreq := Director outreq in
  let reqUpType := upgradeType (http.Request.Header outreq) in
  if negb (ascii.IsPrint reqUpType) then inl reqUpType
  else
    let h := removeHopByHopHeaders (http.Request.Header outreq) in
    let h :=
      if httpguts.HeaderValuesContainsToken
           (http.values (http.Request.Header req) "Te") "trailers"
      then http.Set_ h "Te" "trailers" else h in
    let h :=
      if negb (String.eqb reqUpType "")
      then http.Set_ (http.Set_ h "Connection" "Upgrade") "Upgrade" reqUpType
      else h in
    let h :=
      match net.SplitHostPort (http.Request.RemoteAddr req) with
      | Some (clientIP, _) =>
          match h !! "X-Forwarded-For" with
          | Some [] => h
          | Some prior =>
              http.Set_ h "X-Forwarded-For"
                (strings.Join prior ", " +:+ ", " +:+ clientIP)
          | None => http.Set_ h "X-Forwarded-For" clientIP
          end
      | None => h
      end in
    let h :=
      match h !! "User-Agent" with
      | None => http.Set_ h "User-Agent" ""
      | Some _ => h
      end in
    inr (http.Request.set_Header h outreq).

(** [p.modifyResponse(rw, res, req)]: [None] when the hook failed and
    the error handler has answered. *)
Definition modifyResponse (x : exchange) (res : http.Response.t)
    (req : http.Request.t) : option http.Response.t * exchange :=
  let '(res, logs, err) := ModifyResponse res in
  let x := foldl (fun x line => record (LogLine line) x) x logs in
  match err with
  | Some err => (None, ErrorHandler x req (ModifyResponseError err))
  | None => (Some res, x)
  end.

(** [p.copyBuffer(dst, src, buf)] over the reads the body yields: a read
    error other than [io.EOF] and [context.Canceled] is logged, the
    bytes read are written, and the loop ends on a failed write or on
    the error of the read.  [true] is the nil error. *)
Fixpoint copyBuffer (reads : list string) (last_read : string)
    (rerr : option read_error) (x : exchange) : bool * exchange :=
  match reads with
  | chunk :: reads' =>
      if String.eqb chunk "" then copyBuffer reads' last_read rerr x
      else
        let '(werr, x) := rw_Write env chunk x in
        match werr with
        | Some _ => (false, x)
        | None => copyBuffer reads' last_read rerr x
        end
  | [] =>
      let x :=
        match rerr with
        | Some (ReadFailed text) =>
            record
              (LogReadError
                 "httputil: ReverseProxy read error during body copy: %v"
                 (ReadFailed text)) x
        | _ => x
        end in
      let '(werr, x) :=
        if String.eqb last_read "" then (None, x)
        else rw_Write env last_read x in
      match werr, rerr with
      | Some _, _ => (false, x)
      | None, Some _ => (false, x)
      | None, None => (true, x)
      end
  end.

(** [p.handleUpgradeResponse(rw, req, res)], up to the takeover of the
    connection. *)
Definition handleUpgradeResponse (x : exchange) (req : http.Request.t)
    (res : http.Response.t) : ending * exchange :=
  let reqUpType := upgradeType (http.Request.Header req) in
  let resUpType := upgradeType (http.Response.Header res) in
  let x :=
    if negb (ascii.IsPrint resUpType)
    then ErrorHandler x req (BackendInvalidProtocol resUpType)
    else x in
  if negb (ascii.EqualFold reqUpType resUpType) then
    (Returned, ErrorHandler x req (BackendSwitchedProtocol resUpType reqUpType))
  else
    let x := record Hijack x in
    match hijack env with
    | HijackNotSupported => (Returned, ErrorHandler x req NotHijacker)
    | HijackError text => (Returned, ErrorHandler x req (HijackFailed text))
    | Hijacked =>
        (Switched,
         set_header (copyHeader (header x) (http.Response.Header res)) x)
    end.

(** [p.ServeHTTP(rw, req)] *)
Definition ServeHTTP (x : exchange) (req : http.Request.t)
  : ending * exchange :=
  match outbound req with
  | inl reqUpType =>
      (Returned, ErrorHandler x req (ClientInvalidProtocol reqUpType))
  | inr outreq =>
      (* res, err := transport.RoundTrip(outreq) *)
      let reply := upstream env (history x) outreq in
      let x :=
        mkExchange (history x ++ [outreq]) (header x)
          (calls x ++ [RoundTrip outreq]) in
      (* Got1xxResponse *)
      let x :=
        foldl
          (fun x '(code, h1xx) =>
             set_header ∅
               (rw_WriteHeader code
                  (set_header (copyHeader (header x) h1xx) x)))
          x (informational reply) in
      match result reply with
      | inl err => (Returned, ErrorHandler x outreq (TransportError err))
      | inr ans =>
          let res :=
            http.Response.mk (StatusCode ans) (Header ans)
              (String.concat "" (reads ans) +:+ last_read ans) outreq in
          if StatusCode ans =? http.StatusSwitchingProtocols then
            match modifyResponse x res outreq with
            | (None, x) => (Returned, x)
            | (Some res, x) => handleUpgradeResponse x outreq res
            end
          else
            let res :=
              http.Response.set_Header
                (removeHopByHopHeaders (http.Response.Header res)) res in
            match modifyResponse x res outreq with
            | (None, x) => (Returned, x)
            | (Some res, x) =>
                let x :=
                  set_header
                    (copyHeader (header x) (http.Response.Header res)) x in
                let announcedTrailers := size (announced ans) in
                let x :=
                  if (0 <? announcedTrailers)%nat then
                    set_header
                      (http.Add (header x) "Trailer"
                         (strings.Join (map fst (map_to_list (announced ans)))
                            ", ")) x
                  else x in
                let x := rw_WriteHeader (http.Response.StatusCode res) x in
                match
                  copyBuffer (reads ans) (last_read ans) (read_err ans) x
                with
                | (false, x) => (Aborted, x)
                | (true, x) =>
                    if (size (Trailer ans) =? announcedTrailers)%nat then
                      (Returned,
                       set_header (copyHeader (header x) (Trailer ans)) x)
                    else
                      (Returned,
                       set_header
                         (map_fold
                            (fun k vv h =>
                               foldl
                                 (fun h v =>
                                    http.Add h (http.TrailerPrefix +:+ k) v)
                                 h vv)
                            (header x) (Trailer ans)) x)
                end
            end
      end
  end.

End ReverseProxy.

End httputil.

(* ===================================================================== *)
(** ** main.go *)
(* ===================================================================== *)

Module main.

Record Config := mkConfig {
  Host : string;
  Port : Z;
  ProxyHost : string;
  ProxyPort : Z;
  CertFile : string;
  KeyFile : string
}.

(** [fmt.Sprintf("http://%s:%d", config.ProxyHost, config.ProxyPort)] *)
Definition targetURL (config : Config) : string :=
  "http://" +:+ ProxyHost config +:+ ":" +:+ fmt.Sprintd (ProxyPort config).

(** [url.Parse(targetURL)]; on [None], [main] stops in [log.Fatal] and
    no proxy is created. *)
Definition parse_target (config : Config) : option url.URL :=
  url.Parse (targetURL config).

Section Hooks.

(** The parsed upstream URL captured by the closures. *)
Variable target : url.URL.
(** [mime.TypeByExtension]: its table is merged from the MIME files of
    the host at first use, so the mapping is a parameter. *)
Variable TypeByExtension : string -> string.

(** [proxy.Director] *)
Definition Director (req : http.Request.t) : http.Request.t :=
  let req :=
    http.Request.set_URL
      (url.set_Scheme (url.Scheme target) (http.Request.URL req)) req in
  let req :=
    http.Request.set_URL
      (url.set_Host (url.Host target) (http.Request.URL req)) req in
  let req := http.Request.set_Host (url.Host target) req in
  (* Add standard proxy headers *)
  let req :=
    http.Request.set_Header
      (http.Add (http.Request.Header req) "X-Forwarded-Host"
         (http.Request.Host req)) req in
  let req :=
    http.Request.set_Header
      (http.Add (http.Request.Header req) "X-Forwarded-Proto"
         (url.Scheme (http.Request.URL req))) req in
  let req :=
    http.Request.set_Header
      (http.Add (http.Request.Header req) "X-Real-IP"
         (http.Request.RemoteAddr req)) req in
  req.

(** [proxy.ModifyResponse]: the response after the hook, the lines it
    logged, and the error it returns ([None] is [nil]). *)
Definition ModifyResponse (resp : http.Response.t)
  : http.Response.t * list string * option string :=
  let path := url.Path (http.Request.URL (http.Response.Request resp)) in
  let ext := filepath.Ext path in
  if negb (String.eqb ext "") then
    let correctMimeType := TypeByExtension ext in
    if negb (String.eqb correctMimeType "") then
      let currentContentType :=
        http.Get (http.Response.Header resp) "Content-Type" in
      if String.eqb currentContentType ""
         || String.eqb currentContentType "text/plain"
         || String.eqb currentContentType "application/octet-stream"
      then
        (http.Response.set_Header
           (http.Set_ (http.Response.Header resp) "Content-Type"
              correctMimeType) resp,
         ["Fixed MIME type for " +:+ path +:+ ": " +:+ currentContentType
            +:+ " -> " +:+ correctMimeType],
         None)
      else (resp, [], None)
    else (resp, [], None)
  else (resp, [], None).

(** [proxy.ErrorHandler] *)
Definition ErrorHandler (w : httputil.exchange) (r : http.Request.t)
    (err : httputil.error) : httputil.exchange :=
  let w := httputil.record (httputil.LogError "Proxy error: %v" err) w in
  httputil.rw_WriteHeader http.StatusBadGateway w.

(** The handler of the server: the reverse proxy with the three
    hooks. *)
Definition proxy (env : httputil.Env) (rw : httputil.exchange)
    (req : http.Request.t) : httputil.ending * httputil.exchange :=
  httputil.ServeHTTP Director ModifyResponse ErrorHandler env rw req.

End Hooks.

(** *** Start-up: [parseFlags] and the head of [main] *)

(** What the process writes before it stops: a line whose text the
    source spells out, the usage text printed by [flag.Usage], or the
    text of the error that [url.Parse] returned for a URL. *)
Inductive line :=
| Text (s : string)
| Usage
| UrlError (rawURL : string).

(** A step of start-up either hands on a value or ends the process
    with an exit code, after the lines it wrote. *)
Inductive outcome (A : Type) :=
| Return (a : A)
| Exit (code : Z) (written : list line).
Arguments Return {A} a.
Arguments Exit {A} code written.

Definition bind {A B : Type} (o : outcome A) (k : A -> outcome B) : outcome B :=
  match o with
  | Return a => k a
  | Exit code written => Exit code written
  end.

(** [fmt]'s [%v] of a [[]string]: the elements between brackets,
    separated by one space. *)
Fixpoint join_space (l : list string) : string :=
  match l with
  | [] => ""
  | [x] => x
  | x :: l' => x +:+ " " +:+ join_space l'
  end.

Definition show_strings (l : list string) : string :=
  "[" +:+ join_space l +:+ "]".

(** The checks of [parseFlags] on the values [flag.Parse] left in
    [config], appending to [missingFlags] in the order of the source. *)
Definition missingFlags (config : Config) : list string :=
  let missingFlags : list string := [] in
  let missingFlags :=
    if String.eqb (Host config) "" then (missingFlags ++ ["host"])%list
    else missingFlags in
  let missingFlags :=
    if Port config =? 0 then (missingFlags ++ ["port"])%list
    else missingFlags in
  let missingFlags :=
    if String.eqb (ProxyHost config) ""
    then (missingFlags ++ ["proxy-for-host"])%list
    else missingFlags in
  let missingFlags :=
    if ProxyPort config =? 0 then (missingFlags ++ ["proxy-for-port"])%list
    else missingFlags in
  let missingFlags :=
    if String.eqb (CertFile config) "" then (missingFlags ++ ["cert"])%list
    else missingFlags in
  let missingFlags :=
    if String.eqb (KeyFile config) "" then (missingFlags ++ ["key"])%list
    else missingFlags in
  missingFlags.

(** [parseFlags], from the point where [flag.Parse] has filled
    [config]: with a flag missing it reports the list, prints the usage
    and calls [os.Exit(1)]. *)
Definition parseFlags (config : Config) : outcome Config :=
  let missing := missingFlags config in
  if 0 <? Z.of_nat (length missing) then
    Exit 1 [Text ("Error: missing required flags: " +:+ show_strings missing);
            Usage]
  else Return config.

(** The error of [os.Stat], as far as [os.IsNotExist] tells errors
    apart. *)
Inductive stat_error :=
| ErrNotExist
| ErrOther (msg : string).

(** [os.IsNotExist(err)]; [None] is the nil error. *)
Definition IsNotExist (err : option stat_error) : bool :=
  match err with
  | Some ErrNotExist => true
  | _ => false
  end.

(** [time.Second], in nanoseconds. *)
Definition Second : Z := 1000000000.

(** The [http.Server] that [main] builds; its handler is the proxy
    over [upstream]. *)
Record Server := mkServer {
  Addr : string;
  upstream : url.URL;
  ReadTimeout : Z;
  WriteTimeout : Z;
  IdleTimeout : Z
}.

Section Startup.

(** [os.Stat] on the file system of the host: the error it returns for
    a path. *)
Variable Stat : string -> option stat_error.

(** [main] from the certificate checks to the server value; [log.Fatalf]
    and [log.Fatal] write their line and exit with code 1. *)
Definition startup (config : Config) : outcome Server :=
  if IsNotExist (Stat (CertFile config)) then
    Exit 1 [Text ("Certificate file not found: " +:+ CertFile config)]
  else if IsNotExist (Stat (KeyFile config)) then
    Exit 1 [Text ("Key file not found: " +:+ KeyFile config)]
  else
    match url.Parse (targetURL config) with
    | None => Exit 1 [UrlError (targetURL config)]
    | Some target =>
        Return
          (mkServer (Host config +:+ ":" +:+ fmt.Sprintd (Port config))
             target (15 * Second) (15 * Second) (60 * Second))
    end.

(** [main] up to the call of [ListenAndServeTLS]. *)
Definition run (config : Config) : outcome Server :=
  bind (parseFlags config) startup.

End Startup.

End main.

(* ===================================================================== *)
(** ** Vocabulary of the statements and running examples *)
(* ===================================================================== *)

(** The three forwarding headers, by the keys under which the header map
    stores them. *)
Definition forwarding_keys : list string :=
  map textproto.CanonicalMIMEHeaderKey
    ["X-Forwarded-Host"; "X-Forwarded-Proto"; "X-Real-IP"].

(** The three Content-Type values the rewriter takes for generic. *)
Definition generic_type (ct : string) : Prop :=
  ct = "" \/ ct = "text/plain" \/ ct = "application/octet-stream".

(** [c] is not the byte [d]; [b] is no control byte (the test of
    [stringContainsCTLByte]). *)
Definition not_byte (d : ascii) (c : ascii) : bool := negb (Ascii.eqb c d).
Definition not_CTL (b : ascii) : bool :=
  negb ((Char.code b <? Char.code " ")%N || (Char.code b =? 127)%N).

(** Bytes that [url.Parse] lets through unescaped in a host. *)
Definition host_byte (c : ascii) : bool :=
  negb ((Char.code c <? 128)%N && url.shouldEscape_host c).

(** A host that [url.Parse] reads back as it is written: every byte may
    stand unescaped in a host (so none of [/ ? # @ %], no space, no
    control byte), and the host is no bracketed IP literal.  Host names
    and IPv4 addresses are of this kind; a value such as [a/b] is not,
    and [url.Parse] would cut it at the slash. *)
Definition plain_host (h : string) : bool :=
  strings.all host_byte h && negb (strings.HasPrefix h "[").

(** A running example: the configuration of the README, a browser's
    request for [/app.js] that already carries forwarding headers of its
    own, and the upstream URL [main] parses for that configuration. *)
Definition example_config : main.Config :=
  main.mkConfig "0.0.0.0" 443 "127.0.0.1" 8443 "cert.crt" "key.pem".

Definition example_target : url.URL :=
  url.mkURL "http" "" None "127.0.0.1:8443" "" false false "" "".

Definition example_request : http.Request.t :=
  http.Request.mk "GET"
    (url.mkURL "" "" None "" "/app.js" false false "v=3" "")
    "HTTP/1.1"
    (<["X-Forwarded-Host" := ["shop.example"]]>
       (<["X-Real-Ip" := ["198.51.100.4"]]>
          (<["Accept" := ["*/*"]]> ∅)))
    "" 0 "relay.example.org" "203.0.113.7:51234" "/app.js?v=3".

(** The upstream's answer to the running example: [app.js] served as
    [text/plain]. *)
Definition example_response : http.Response.t :=
  http.Response.mk 200
    (<["Content-Type" := ["text/plain"]]> (<["Server" := ["nc"]]> ∅))
    "x"
    (main.Director example_target example_request).

(** The second scenario of the specification: [/data.json] answered with
    [application/json]. *)
Definition example_json_response : http.Response.t :=
  http.Response.mk 200
    (<["Content-Type" := ["application/json"]]> ∅)
    "{}"
    (http.Request.mk "GET"
       (url.mkURL "http" "" None "127.0.0.1:8443" "/data.json" false false "" "")
       "HTTP/1.1" ∅ "" 0 "127.0.0.1:8443" "203.0.113.7:51234" "/data.json").

(** The same answer with a charset parameter on the generic type. *)
Definition example_charset_response : http.Response.t :=
  http.Response.mk 200
    (<["Content-Type" := ["text/plain; charset=utf-8"]]> ∅)
    "x"
    (main.Director example_target example_request).

(** Bytes at which [url.Parse] does not cut or decode an authority: all
    but the path, query and fragment marks, the userinfo mark and the
    escape mark. *)
Definition authority_byte (c : ascii) : bool :=
  negb (Char.one_of "/?#@%" c).

(** The running example with userinfo in front of the upstream host. *)
Definition example_userinfo_config : main.Config :=
  main.mkConfig "0.0.0.0" 443 "u@h" 8443 "cert.crt" "key.pem".

Definition example_userinfo_target : url.URL :=
  url.mkURL "http" "" (Some (url.mkUserinfo "u" "" false)) "h:8443" ""
    false false "" "".

(** A world in which nothing fails on the client side. *)
Definition Env_of (upstream : httputil.Reply) : httputil.Env :=
  httputil.mkEnv (fun _ _ => upstream) (fun _ => None) httputil.Hijacked.

(** An upstream that refuses the connection. *)
Definition refusing_env : httputil.Env :=
  Env_of
    (httputil.mkReply []
       (inl "dial tcp 127.0.0.1:8443: connect: connection refused")).

(** An upstream that answers with [app.js] served as [text/plain]. *)
Definition example_answer : httputil.Answer :=
  httputil.mkAnswer 200
    (<["Content-Type" := ["text/plain"]]> (<["Server" := ["nc"]]> ∅))
    ∅ ["x"] "" None ∅.

Definition answering_env : httputil.Env :=
  Env_of (httputil.mkReply [] (inr example_answer)).

(** An upstream that answers with JSON under a hop-by-hop header. *)
Definition example_json_answer : httputil.Answer :=
  httputil.mkAnswer 200
    (<["Content-Type" := ["application/json"]]>
       (<["Keep-Alive" := ["timeout=5"]]> ∅))
    ∅ ["{}"] "" None ∅.

Definition json_env : httputil.Env :=
  Env_of (httputil.mkReply [] (inr example_json_answer)).

(** An upstream that sends the header and one byte of [app.js], after
    which the connection is reset. *)
Definition example_reset_answer : httputil.Answer :=
  httputil.mkAnswer 200 (<["Content-Type" := ["text/plain"]]> ∅)
    ∅ ["x"] "" (Some (httputil.ReadFailed "connection reset by peer")) ∅.

Definition reset_env : httputil.Env :=
  Env_of (httputil.mkReply [] (inr example_reset_answer)).



(** The call an informational response leaves on the writer. *)
Definition informational_call (r : Z * gmap string (list string))
  : httputil.call :=
  httputil.WriteHeader r.1 (httputil.copyHeader ∅ r.2).

(** The calls made on the [ResponseWriter]. *)
Definition is_writer_call (c : httputil.call) : bool :=
  match c with
  | httputil.WriteHeader _ _ | httputil.Write _ _ | httputil.Hijack => true
  | _ => false
  end.

Definition writer_calls (x : httputil.exchange) : list httputil.call :=
  filter (fun c => is_writer_call c = true) (httputil.calls x).

(** The lines that report an error. *)
Definition is_error_log (c : httputil.call) : bool :=
  match c with
  | httputil.LogError _ _ | httputil.LogReadError _ _ => true
  | _ => false
  end.

Definition error_logs (x : httputil.exchange) : list httputil.call :=
  filter (fun c => is_error_log c = true) (httputil.calls x).

(** The calls of the body copy: writes, and the line for a failed
    read. *)
Definition is_body_call (c : httputil.call) : bool :=
  match c with
  | httputil.Write _ _ | httputil.LogReadError _ _ => true
  | _ => false
  end.

(** The header map the proxy has built when it sends the status line
    of a response it relays: the response's header after the rewriter,
    and the announced trailer keys. *)
Definition relayed_header (ans : httputil.Answer) (res : http.Response.t)
  : gmap string (list string) :=
  let h := httputil.copyHeader ∅ (http.Response.Header res) in
  if (0 <? size (httputil.announced ans))%nat
  then http.Add h "Trailer"
         (strings.Join (map fst (map_to_list (httputil.announced ans))) ", ")
  else h.

(** The response the proxy hands to the rewriter for an answer other
    than a protocol switch. *)
Definition stripped_response (ans : httputil.Answer) (outreq : http.Request.t)
  : http.Response.t :=
  http.Response.mk (httputil.StatusCode ans)
    (httputil.removeHopByHopHeaders (httputil.Header ans))
    (String.concat "" (httputil.reads ans) +:+ httputil.last_read ans) outreq.

(** Every required flag has a value other than the zero value of its
    type. *)
Definition complete (config : main.Config) : Prop :=
  main.Host config ≠ "" /\ main.Port config ≠ 0
  /\ main.ProxyHost config ≠ "" /\ main.ProxyPort config ≠ 0
  /\ main.CertFile config ≠ "" /\ main.KeyFile config ≠ "".

(** The names of the flags, in the order [parseFlags] checks them. *)
Definition flag_names : list string :=
  ["host"; "port"; "proxy-for-host"; "proxy-for-port"; "cert"; "key"].

(** The server [main] builds for a configuration whose upstream URL
    parses to [http://ProxyHost:ProxyPort]. *)
Definition expected_server (config : main.Config) : main.Server :=
  main.mkServer
    (main.Host config +:+ ":" +:+ fmt.Sprintd (main.Port config))
    (url.mkURL "http" "" None
       (main.ProxyHost config +:+ ":" +:+ fmt.Sprintd (main.ProxyPort config))
       "" false false "" "")
    (15 * main.Second) (15 * main.Second) (60 * main.Second).

(** Every key of the map is in canonical form, as in the header maps
    that net/http reads off the wire. *)
Definition canonical_keys (h : gmap string (list string)) : Prop :=
  forall k vs, h !! k = Some vs -> textproto.CanonicalMIMEHeaderKey k = k.

(** A file system on which every path exists, and the running example
    with a negative upstream port. *)
Definition example_Stat (_ : string) : option main.stat_error := None.

Definition example_negative_port_config : main.Config :=
  main.mkConfig "0.0.0.0" 443 "127.0.0.1" (-1) "cert.crt" "key.pem".

(** The six tests of [parseFlags], each decided. *)
Ltac flag_tests config :=
  destruct (String.eqb_spec (main.Host config) "") as [Hhost | Hhost];
  destruct (Z.eqb_spec (main.Port config) 0) as [Hport | Hport];
  destruct (String.eqb_spec (main.ProxyHost config) "") as [Hphost | Hphost];
  destruct (Z.eqb_spec (main.ProxyPort config) 0) as [Hpport | Hpport];
  destruct (String.eqb_spec (main.CertFile config) "") as [Hcert | Hcert];
  destruct (String.eqb_spec (main.KeyFile config) "") as [Hkey | Hkey].

(** Case analysis over the 256 values of a byte. *)
Ltac byte_cases c :=
  destruct c as [[] [] [] [] [] [] [] []]; vm_compute in *;
  try congruence; try reflexivity.

(* ===================================================================== *)
(** * Properties *)
(* ===================================================================== *)

(** ** The model on concrete inputs *)

Example Parse_localhost :
  url.Parse "http://127.0.0.1:8443"
  = Some (url.mkURL "http" "" None "127.0.0.1:8443" "" false false "" "").
Proof. vm_compute. reflexivity. Qed.

Example Parse_path_query :
  url.Parse "HTTPS://u:p%41@[fe80::1%25en0]:80/a%20b/c.js?x=1#frag"
  = Some (url.mkURL "https" "" (Some (url.mkUserinfo "u" "pA" true))
            "[fe80::1%en0]:80" "/a b/c.js" false false "x=1" "frag").
Proof. vm_compute. reflexivity. Qed.

Example Parse_bad_port : url.Parse "http://localhost:-5" = None.
Proof. vm_compute. reflexivity. Qed.

Example Parse_slash_in_host :
  option_map url.Host (url.Parse "http://a/b:8443") = Some "a".
Proof. vm_compute. reflexivity. Qed.

Example canonical_content_type :
  textproto.CanonicalMIMEHeaderKey "content-type" = "Content-Type".
Proof. vm_compute. reflexivity. Qed.

Example canonical_real_ip :
  textproto.CanonicalMIMEHeaderKey "X-Real-IP" = "X-Real-Ip".
Proof. vm_compute. reflexivity. Qed.

Example canonical_not_a_token :
  textproto.CanonicalMIMEHeaderKey "x real@ip" = "x real@ip".
Proof. vm_compute. reflexivity. Qed.

Example Ext_app_js : filepath.Ext "/static/app.min.js" = ".js".
Proof. reflexivity. Qed.

Example Ext_dot_in_directory : filepath.Ext "/v1.2/readme" = "".
Proof. reflexivity. Qed.

Example Ext_trailing_dot : filepath.Ext "/file." = ".".
Proof. reflexivity. Qed.

(** ** Header maps *)

Section HeaderFacts.

Implicit Types (h : gmap string (list string)) (key k v : string).

Lemma values_Add_eq h key v :
  http.values (http.Add h key v) (textproto.CanonicalMIMEHeaderKey key)
  = (http.values h (textproto.CanonicalMIMEHeaderKey key) ++ [v])%list.
Proof. unfold http.Add, http.values. by rewrite lookup_insert_eq. Qed.

Lemma lookup_Add_ne h key v k :
  k ≠ textproto.CanonicalMIMEHeaderKey key ->
  http.Add h key v !! k = h !! k.
Proof. intros Hne. unfold http.Add. by rewrite lookup_insert_ne. Qed.

Lemma values_Add_ne h key v k :
  k ≠ textproto.CanonicalMIMEHeaderKey key ->
  http.values (http.Add h key v) k = http.values h k.
Proof. intros Hne. unfold http.values. by rewrite lookup_Add_ne. Qed.

(** Whatever the key, [Add] keeps the values that were there, in
    place, and writes at most one more after them. *)
Lemma values_Add_prefix h key v k :
  http.values h k `prefix_of` http.values (http.Add h key v) k.
Proof.
  destruct (decide (k = textproto.CanonicalMIMEHeaderKey key)) as [->|Hne].
  - rewrite values_Add_eq. by apply prefix_app_r.
  - by rewrite values_Add_ne.
Qed.

Lemma Get_values h key :
  http.Get h key
  = default "" (head (http.values h (textproto.CanonicalMIMEHeaderKey key))).
Proof. unfold http.Get. by destruct (http.values h _). Qed.

Lemma Get_Set h key v : http.Get (http.Set_ h key v) key = v.
Proof. unfold http.Get, http.Set_, http.values. by rewrite lookup_insert_eq. Qed.

End HeaderFacts.

Example forwarding_keys_canonical :
  forwarding_keys = ["X-Forwarded-Host"; "X-Forwarded-Proto"; "X-Real-Ip"].
Proof. vm_compute. reflexivity. Qed.

(** ** The Director *)

Section DirectorFacts.

Variable target : url.URL.
Implicit Types req : http.Request.t.

(** The header map after the Director, as three [Add]s on the inbound
    one; the values are those the closure reads after its three
    assignments. *)
Lemma Director_Header req :
  http.Request.Header (main.Director target req)
  = http.Add
      (http.Add
         (http.Add (http.Request.Header req) "X-Forwarded-Host"
            (url.Host target))
         "X-Forwarded-Proto" (url.Scheme target))
      "X-Real-IP" (http.Request.RemoteAddr req).
Proof. reflexivity. Qed.

Lemma Director_values_Forwarded_Host req :
  http.values (http.Request.Header (main.Director target req)) "X-Forwarded-Host"
  = (http.values (http.Request.Header req) "X-Forwarded-Host"
     ++ [url.Host target])%list.
Proof.
  rewrite Director_Header.
  rewrite !values_Add_ne by (vm_compute; discriminate).
  exact (values_Add_eq _ "X-Forwarded-Host" _).
Qed.

Lemma Director_values_Forwarded_Proto req :
  http.values (http.Request.Header (main.Director target req)) "X-Forwarded-Proto"
  = (http.values (http.Request.Header req) "X-Forwarded-Proto"
     ++ [url.Scheme target])%list.
Proof.
  rewrite Director_Header.
  rewrite values_Add_ne by (vm_compute; discriminate).
  rewrite (values_Add_eq _ "X-Forwarded-Proto" _).
  change (textproto.CanonicalMIMEHeaderKey "X-Forwarded-Proto")
    with "X-Forwarded-Proto".
  by rewrite values_Add_ne by (vm_compute; discriminate).
Qed.

Lemma Director_values_Real_IP req :
  http.values (http.Request.Header (main.Director target req)) "X-Real-Ip"
  = (http.values (http.Request.Header req) "X-Real-Ip"
     ++ [http.Request.RemoteAddr req])%list.
Proof.
  rewrite Director_Header.
  rewrite (values_Add_eq _ "X-Real-IP" _).
  change (textproto.CanonicalMIMEHeaderKey "X-Real-IP") with "X-Real-Ip".
  by rewrite !values_Add_ne by (vm_compute; discriminate).
Qed.

Lemma Director_lookup_other req k :
  k ∉ forwarding_keys ->
  http.Request.Header (main.Director target req) !! k
  = http.Request.Header req !! k.
Proof.
  rewrite forwarding_keys_canonical. intros Hk.
  rewrite Director_Header.
  rewrite !lookup_Add_ne; [done | | |];
    intros ->; apply Hk; vm_compute; set_solver.
Qed.

End DirectorFacts.

Example example_target_parsed :
  main.parse_target example_config = Some example_target.
Proof. vm_compute. reflexivity. Qed.

(** C1. The claim asks for the original request's host in
    [X-Forwarded-Host]; the code does not deliver it.  At the running
    example the inbound request was sent to host [relay.example.org];
    after the Director the values of [X-Forwarded-Host] are the client's
    own value followed by [127.0.0.1:8443], the host of the upstream
    target, and the original host is not among them: the closure assigns
    [req.Host = target.Host] before it reads [req.Host] for the header. *)
Theorem Director_forwarded_host_is_target_host :
  main.parse_target example_config = Some example_target
  /\ http.Request.Host example_request = "relay.example.org"
  /\ http.values
       (http.Request.Header (main.Director example_target example_request))
       (textproto.CanonicalMIMEHeaderKey "X-Forwarded-Host")
     = ["shop.example"; "127.0.0.1:8443"]
  /\ "relay.example.org"
     ∉ http.values
         (http.Request.Header (main.Director example_target example_request))
         (textproto.CanonicalMIMEHeaderKey "X-Forwarded-Host").
Proof.
  assert (Hvalues :
            http.values
              (http.Request.Header (main.Director example_target example_request))
              (textproto.CanonicalMIMEHeaderKey "X-Forwarded-Host")
            = ["shop.example"; "127.0.0.1:8443"]).
  { change (textproto.CanonicalMIMEHeaderKey "X-Forwarded-Host")
      with "X-Forwarded-Host".
    rewrite Director_values_Forwarded_Host. vm_compute. reflexivity. }
  split; [vm_compute; reflexivity |]. split; [reflexivity |].
  split; [exact Hvalues |].
  rewrite Hvalues. intros Hin.
  apply elem_of_cons in Hin as [Heq | Hin]; [discriminate Heq |].
  apply elem_of_cons in Hin as [Heq | Hin]; [discriminate Heq |].
  by apply elem_of_nil in Hin.
Qed.

(** C6. The Director only appends to the three forwarding headers: for
    every request and every header key, the values present before are
    still there afterwards, in the same order and at the front; for each
    of [X-Forwarded-Host], [X-Forwarded-Proto] and [X-Real-IP] (stored
    under its canonical key) the values afterwards are the client's
    values followed by the one injected value. *)
Theorem Director_appends_forwarding_headers
    (target : url.URL) (req : http.Request.t) :
  let h := http.Request.Header req in
  let h' := http.Request.Header (main.Director target req) in
  (forall k : string, http.values h k `prefix_of` http.values h' k)
  /\ http.values h' (textproto.CanonicalMIMEHeaderKey "X-Forwarded-Host")
     = (http.values h (textproto.CanonicalMIMEHeaderKey "X-Forwarded-Host")
        ++ [url.Host target])%list
  /\ http.values h' (textproto.CanonicalMIMEHeaderKey "X-Forwarded-Proto")
     = (http.values h (textproto.CanonicalMIMEHeaderKey "X-Forwarded-Proto")
        ++ [url.Scheme target])%list
  /\ http.values h' (textproto.CanonicalMIMEHeaderKey "X-Real-IP")
     = (http.values h (textproto.CanonicalMIMEHeaderKey "X-Real-IP")
        ++ [http.Request.RemoteAddr req])%list.
Proof.
  cbv zeta. split; [| split; [| split]].
  - intros k. rewrite Director_Header.
    etrans; [| apply values_Add_prefix].
    etrans; [| apply values_Add_prefix].
    apply values_Add_prefix.
  - apply Director_values_Forwarded_Host.
  - apply Director_values_Forwarded_Proto.
  - apply Director_values_Real_IP.
Qed.

(** C7. The Director leaves the rest of the request alone: method, body,
    protocol, content length, remote address and request URI are
    unchanged; in the URL everything but [Scheme] and [Host] is unchanged
    (the query string and the path among them); and every header stored
    under a key other than the three forwarding keys is unchanged. *)
Theorem Director_frame (target : url.URL) (req : http.Request.t) :
  let out := main.Director target req in
  http.Request.Method out = http.Request.Method req
  /\ http.Request.Body out = http.Request.Body req
  /\ http.Request.Proto out = http.Request.Proto req
  /\ http.Request.ContentLength out = http.Request.ContentLength req
  /\ http.Request.RemoteAddr out = http.Request.RemoteAddr req
  /\ http.Request.RequestURI out = http.Request.RequestURI req
  /\ http.Request.URL out
     = url.set_Host (url.Host target)
         (url.set_Scheme (url.Scheme target) (http.Request.URL req))
  /\ url.RawQuery (http.Request.URL out) = url.RawQuery (http.Request.URL req)
  /\ url.Path (http.Request.URL out) = url.Path (http.Request.URL req)
  /\ (forall k : string, k ∉ forwarding_keys ->
        http.Request.Header out !! k = http.Request.Header req !! k).
Proof.
  cbv zeta. repeat split.
  intros k Hk. by apply Director_lookup_other.
Qed.

(** ** The response rewriter *)

Lemma generic_type_test (ct : string) :
  String.eqb ct "" || String.eqb ct "text/plain"
  || String.eqb ct "application/octet-stream" = true
  <-> generic_type ct.
Proof.
  unfold generic_type.
  rewrite !orb_true_iff, !String.eqb_eq. tauto.
Qed.

Lemma string_nonempty_test (s : string) : negb (String.eqb s "") = true <-> s ≠ "".
Proof. rewrite negb_true_iff. apply String.eqb_neq. Qed.

(** C3. When the response's Content-Type reads as empty, [text/plain] or
    [application/octet-stream], the request path has an extension and the
    MIME table maps it, the rewriter sets Content-Type to the mapped type
    (as its only value), logs the change, and touches nothing else. *)
Theorem ModifyResponse_overrides_generic_type
    (TypeByExtension : string -> string) (resp : http.Response.t) :
  let path := url.Path (http.Request.URL (http.Response.Request resp)) in
  let ext := filepath.Ext path in
  let current := http.Get (http.Response.Header resp) "Content-Type" in
  generic_type current ->
  ext ≠ "" ->
  TypeByExtension ext ≠ "" ->
  exists resp',
    main.ModifyResponse TypeByExtension resp
    = (resp',
       ["Fixed MIME type for " +:+ path +:+ ": " +:+ current +:+ " -> "
          +:+ TypeByExtension ext],
       None)
    /\ http.Get (http.Response.Header resp') "Content-Type" = TypeByExtension ext
    /\ http.Response.Header resp'
       = <["Content-Type" := [TypeByExtension ext]]> (http.Response.Header resp)
    /\ http.Response.StatusCode resp' = http.Response.StatusCode resp
    /\ http.Response.Body resp' = http.Response.Body resp
    /\ http.Response.Request resp' = http.Response.Request resp.
Proof.
  cbv zeta. intros Hgen Hext Hmime.
  apply generic_type_test in Hgen.
  apply string_nonempty_test in Hext, Hmime.
  unfold main.ModifyResponse. rewrite Hext, Hmime, Hgen.
  eexists. split; [reflexivity |].
  split; [apply Get_Set |]. repeat split.
Qed.

Lemma ModifyResponse_overrides_generic_type_witness :
  generic_type (http.Get (http.Response.Header example_response) "Content-Type")
  /\ filepath.Ext "/app.js" = ".js"
  /\ mime.builtin_TypeByExtension ".js" = "text/javascript; charset=utf-8"
  /\ exists resp',
       main.ModifyResponse mime.builtin_TypeByExtension example_response
       = (resp',
          ["Fixed MIME type for /app.js: text/plain -> text/javascript; charset=utf-8"],
          None)
       /\ http.Get (http.Response.Header resp') "Content-Type"
          = "text/javascript; charset=utf-8".
Proof.
  assert (Hgen : generic_type
                   (http.Get (http.Response.Header example_response) "Content-Type"))
    by (right; left; vm_compute; reflexivity).
  split; [exact Hgen |]. split; [reflexivity |]. split; [reflexivity |].
  destruct (ModifyResponse_overrides_generic_type
              mime.builtin_TypeByExtension example_response Hgen)
    as (resp' & Heq & Hget & _).
  - vm_compute. discriminate.
  - vm_compute. discriminate.
  - exists resp'. split; [exact Heq | exact Hget].
Defined.

(** The rewriter returns its argument untouched as soon as one of its
    three tests fails. *)
Lemma ModifyResponse_unchanged
    (TypeByExtension : string -> string) (resp : http.Response.t) :
  let ext :=
    filepath.Ext (url.Path (http.Request.URL (http.Response.Request resp))) in
  let current := http.Get (http.Response.Header resp) "Content-Type" in
  ~ generic_type current \/ ext = "" \/ TypeByExtension ext = "" ->
  main.ModifyResponse TypeByExtension resp = (resp, [], None).
Proof.
  cbv zeta. intros H. unfold main.ModifyResponse.
  destruct (negb (String.eqb (filepath.Ext _) "")) eqn:Hext; [| reflexivity].
  destruct (negb (String.eqb (TypeByExtension _) "")) eqn:Hmime; [| reflexivity].
  match goal with |- (if ?b then _ else _) = _ => destruct b eqn:Hgen end;
    [| reflexivity].
  apply string_nonempty_test in Hext, Hmime.
  apply generic_type_test in Hgen.
  destruct H as [H | [H | H]]; contradiction.
Qed.

(** C4. When the Content-Type reads as anything but the three generic
    values, or the path has no extension, or the extension has no entry in
    the MIME table, the rewriter returns the response as it received it:
    the Content-Type header (and every other header) is unchanged, and
    nothing is logged. *)
Theorem ModifyResponse_leaves_specific_type
    (TypeByExtension : string -> string) (resp : http.Response.t) :
  let ext :=
    filepath.Ext (url.Path (http.Request.URL (http.Response.Request resp))) in
  let current := http.Get (http.Response.Header resp) "Content-Type" in
  ~ generic_type current \/ ext = "" \/ TypeByExtension ext = "" ->
  main.ModifyResponse TypeByExtension resp = (resp, [], None)
  /\ http.Response.Header (main.ModifyResponse TypeByExtension resp).1.1
     = http.Response.Header resp.
Proof.
  cbv zeta. intros H.
  rewrite (ModifyResponse_unchanged TypeByExtension resp H).
  split; reflexivity.
Qed.

Lemma ModifyResponse_leaves_specific_type_witness :
  ~ generic_type
      (http.Get (http.Response.Header example_json_response) "Content-Type")
  /\ main.ModifyResponse mime.builtin_TypeByExtension example_json_response
     = (example_json_response, [], None).
Proof.
  assert (Hspec : ~ generic_type
                    (http.Get (http.Response.Header example_json_response)
                       "Content-Type"))
    by (vm_compute; intros [H | [H | H]]; discriminate H).
  split; [exact Hspec |].
  apply (ModifyResponse_leaves_specific_type
           mime.builtin_TypeByExtension example_json_response).
  left. exact Hspec.
Defined.

(** C9. The generic-type test compares the whole header value: a
    Content-Type that is [text/plain] followed by anything, parameters
    such as [; charset=utf-8] included, is not generic, and the rewriter
    returns the response untouched whatever the path and the MIME table
    are. *)
Theorem ModifyResponse_exact_match_only
    (TypeByExtension : string -> string) (resp : http.Response.t)
    (params : string) :
  params ≠ "" ->
  http.Get (http.Response.Header resp) "Content-Type" = "text/plain" +:+ params ->
  ~ generic_type (http.Get (http.Response.Header resp) "Content-Type")
  /\ main.ModifyResponse TypeByExtension resp = (resp, [], None).
Proof.
  intros Hparams Hct.
  assert (Hspec : ~ generic_type
                      (http.Get (http.Response.Header resp) "Content-Type")).
  { rewrite Hct. intros [H | [H | H]]; simpl in H; [discriminate H | | discriminate H].
    apply Hparams. injection H as H. exact H. }
  split; [exact Hspec |].
  apply ModifyResponse_unchanged. left. exact Hspec.
Qed.

Lemma ModifyResponse_exact_match_only_witness :
  "; charset=utf-8" ≠ ""
  /\ http.Get (http.Response.Header example_charset_response) "Content-Type"
     = "text/plain; charset=utf-8"
  /\ filepath.Ext "/app.js" = ".js"
  /\ mime.builtin_TypeByExtension ".js" = "text/javascript; charset=utf-8"
  /\ main.ModifyResponse mime.builtin_TypeByExtension example_charset_response
     = (example_charset_response, [], None).
Proof.
  split; [discriminate |]. split; [vm_compute; reflexivity |].
  split; [reflexivity |]. split; [reflexivity |].
  apply (ModifyResponse_exact_match_only
           mime.builtin_TypeByExtension example_charset_response
           "; charset=utf-8"); [discriminate | vm_compute; reflexivity].
Defined.

(** ** The error policy and the exchange *)

Example SplitByte_list :
  strings.SplitByte "keep-alive, Upgrade,," ","
  = ["keep-alive"; " Upgrade"; ""; ""].
Proof. reflexivity. Qed.

Example TrimString_spaces : textproto.TrimString "  a b " = "a b".
Proof. reflexivity. Qed.

Example SplitHostPort_v4 :
  net.SplitHostPort "203.0.113.7:51234" = Some ("203.0.113.7", "51234").
Proof. vm_compute. reflexivity. Qed.

Example SplitHostPort_v6 :
  net.SplitHostPort "[2001:db8::1]:443" = Some ("2001:db8::1", "443").
Proof. vm_compute. reflexivity. Qed.

Example SplitHostPort_no_port : net.SplitHostPort "localhost" = None.
Proof. vm_compute. reflexivity. Qed.

Example SplitHostPort_too_many_colons : net.SplitHostPort "::1:80" = None.
Proof. vm_compute. reflexivity. Qed.

Example upgradeType_websocket :
  httputil.upgradeType
    (<["Connection" := ["keep-alive, upgrade"]]>
       (<["Upgrade" := ["websocket"]]> ∅))
  = "websocket".
Proof. vm_compute. reflexivity. Qed.

(** The request the upstream receives in the running example: the
    forwarding headers of the Director after the client's own, and the
    client address under [X-Forwarded-For]. *)
Example outbound_example :
  httputil.outbound (main.Director example_target) example_request
  = inr (http.Request.mk "GET"
           (url.mkURL "http" "" None "127.0.0.1:8443" "/app.js" false false
              "v=3" "")
           "HTTP/1.1"
           (<["User-Agent" := [""]]>
              (<["X-Forwarded-For" := ["203.0.113.7"]]>
                 (<["X-Real-Ip" := ["198.51.100.4"; "203.0.113.7:51234"]]>
                    (<["X-Forwarded-Proto" := ["http"]]>
                       (<["X-Forwarded-Host"
                          := ["shop.example"; "127.0.0.1:8443"]]>
                          (<["Accept" := ["*/*"]]> ∅))))))
           "" 0 "127.0.0.1:8443" "203.0.113.7:51234" "/app.js?v=3").
Proof. vm_compute. reflexivity. Qed.

Section ExchangeFacts.

Implicit Types (h : gmap string (list string)) (k : string).
Implicit Types (x : httputil.exchange) (env : httputil.Env).

Lemma informational_fold (infos : list (Z * gmap string (list string))) x :
  httputil.header x = ∅ ->
  foldl
    (fun x '(code, h1xx) =>
       httputil.set_header ∅
         (httputil.rw_WriteHeader code
            (httputil.set_header
               (httputil.copyHeader (httputil.header x) h1xx) x)))
    x infos
  = httputil.mkExchange (httputil.history x) ∅
      (httputil.calls x ++ map informational_call infos).
Proof.
  revert x. induction infos as [| [code h] infos IH]; intros x Hx.
  - cbn. rewrite app_nil_r. destruct x as [hist hd cs]. cbn in Hx. by subst.
  - cbn [foldl]. rewrite IH by reflexivity.
    cbn. rewrite Hx, <- app_assoc. reflexivity.
Qed.

Lemma log_lines_fold (logs : list string) x :
  foldl (fun x line => httputil.record (httputil.LogLine line) x) x logs
  = httputil.mkExchange (httputil.history x) (httputil.header x)
      (httputil.calls x ++ map httputil.LogLine logs).
Proof.
  revert x. induction logs as [| line logs IH]; intros x; cbn [foldl map].
  - rewrite app_nil_r. by destruct x.
  - rewrite IH. cbn. by rewrite <- app_assoc.
Qed.

(** The rewriter of [main] returns the nil error. *)
Lemma ModifyResponse_error_nil
    (TypeByExtension : string -> string) (resp : http.Response.t) :
  (main.ModifyResponse TypeByExtension resp).2 = None.
Proof.
  unfold main.ModifyResponse.
  repeat match goal with
         | |- context [if ?b then _ else _] => destruct b
         end; reflexivity.
Qed.

Lemma ModifyResponse_StatusCode
    (TypeByExtension : string -> string) (resp : http.Response.t) :
  http.Response.StatusCode (main.ModifyResponse TypeByExtension resp).1.1
  = http.Response.StatusCode resp.
Proof.
  unfold main.ModifyResponse.
  repeat match goal with
         | |- context [if ?b then _ else _] => destruct b
         end; reflexivity.
Qed.

(** With that rewriter the proxy goes on with the response. *)
Lemma modifyResponse_continues
    (TypeByExtension : string -> string)
    (ErrorHandler :
       httputil.exchange -> http.Request.t -> httputil.error ->
       httputil.exchange)
    x (resp : http.Response.t) (req : http.Request.t) :
  httputil.modifyResponse (main.ModifyResponse TypeByExtension) ErrorHandler
    x resp req
  = (Some (main.ModifyResponse TypeByExtension resp).1.1,
     foldl (fun x line => httputil.record (httputil.LogLine line) x) x
       (main.ModifyResponse TypeByExtension resp).1.2).
Proof.
  pose proof (ModifyResponse_error_nil TypeByExtension resp) as Hnil.
  unfold httputil.modifyResponse.
  destruct (main.ModifyResponse TypeByExtension resp) as [[res' logs] e].
  cbn in Hnil. subst e. reflexivity.
Qed.

(** The body copy adds calls of its own kind and nothing else. *)
Lemma copyBuffer_calls env (reads : list string) (last_read : string)
    (rerr : option httputil.read_error) x :
  exists rest,
    httputil.calls (httputil.copyBuffer env reads last_read rerr x).2
    = (httputil.calls x ++ rest)%list
    /\ Forall (fun c => is_body_call c = true) rest.
Proof.
  revert x. induction reads as [| chunk reads IH]; intros x;
    cbn [httputil.copyBuffer].
  - set (x1 := match rerr with
               | Some (httputil.ReadFailed text) => _
               | _ => x
               end).
    assert (H1 : exists rest,
               httputil.calls x1 = (httputil.calls x ++ rest)%list
               /\ Forall (fun c => is_body_call c = true) rest).
    { subst x1. destruct rerr as [[| text] |]; cbn.
      - exists []. by rewrite app_nil_r.
      - eexists. split; [reflexivity |]. by repeat constructor.
      - exists []. by rewrite app_nil_r. }
    destruct H1 as (rest1 & Hcalls1 & Hrest1). clearbody x1.
    destruct (String.eqb last_read "").
    + exists rest1. by destruct rerr.
    + unfold httputil.rw_Write.
      exists (rest1 ++ [httputil.Write last_read
                          (httputil.write_error env
                             (length (filter (fun c => httputil.is_Write c = true)
                                        (httputil.calls x1))))])%list.
      split.
      * destruct (httputil.write_error env _), rerr; cbn;
          by rewrite Hcalls1, <- app_assoc.
      * apply Forall_app. split; [done |]. by repeat constructor.
  - destruct (String.eqb chunk ""); [apply IH |].
    unfold httputil.rw_Write.
    destruct (httputil.write_error env _) as [e |] eqn:He.
    + cbn. eexists. split; [reflexivity |]. by repeat constructor.
    + destruct (IH (httputil.record (httputil.Write chunk None) x))
        as (rest & Hcalls & Hrest).
      rewrite Hcalls. cbn. rewrite <- app_assoc.
      eexists. split; [reflexivity |].
      constructor; [reflexivity | exact Hrest].
Qed.

(** The outbound request keeps the path the client asked for. *)
Lemma outbound_Path (target : url.URL) (req outreq : http.Request.t) :
  httputil.outbound (main.Director target) req = inr outreq ->
  url.Path (http.Request.URL outreq) = url.Path (http.Request.URL req).
Proof.
  intros Hout.
  apply (f_equal (fun r => match r with
                           | inr o => url.Path (http.Request.URL o)
                           | inl _ => url.Path (http.Request.URL req)
                           end)) in Hout.
  rewrite <- Hout. unfold httputil.outbound.
  destruct (negb (ascii.IsPrint _)); [reflexivity |].
  destruct (http.Request.ContentLength req =? 0);
    destruct req as [m [] p h b cl ho ra ru]; reflexivity.
Qed.

(** A fold whose steps delete a key or do nothing only removes
    bindings. *)
Lemma foldl_only_removes {A}
    (f : gmap string (list string) -> A -> gmap string (list string))
    (l : list A) h k :
  (forall h a k, f h a !! k = h !! k \/ f h a !! k = None) ->
  foldl f h l !! k = h !! k \/ foldl f h l !! k = None.
Proof.
  intros Hf. revert h. induction l as [| a l IH]; intros h; [by left |].
  cbn [foldl]. destruct (IH (f h a)) as [-> | ->]; [apply Hf | by right].
Qed.

Lemma Del_only_removes h (key : string) k :
  http.Del h key !! k = h !! k \/ http.Del h key !! k = None.
Proof.
  unfold http.Del.
  destruct (decide (textproto.CanonicalMIMEHeaderKey key = k)) as [<- | Hne].
  - right. apply lookup_delete_eq.
  - left. by apply lookup_delete_ne.
Qed.

Lemma removeHopByHopHeaders_only_removes h k :
  httputil.removeHopByHopHeaders h !! k = h !! k
  \/ httputil.removeHopByHopHeaders h !! k = None.
Proof.
  unfold httputil.removeHopByHopHeaders.
  match goal with
  | |- foldl _ ?h1 _ !! _ = _ \/ _ =>
      assert (H1 : h1 !! k = h !! k \/ h1 !! k = None)
  end.
  { apply foldl_only_removes. intros h' f k'.
    apply foldl_only_removes. intros h'' sf k''.
    destruct (negb _); [apply Del_only_removes | by left]. }
  match goal with
  | |- foldl ?f ?h1 ?l !! _ = _ \/ _ =>
      destruct (foldl_only_removes f l h1 k Del_only_removes) as [-> | ->]
  end; [exact H1 | by right].
Qed.

Lemma removeHopByHopHeaders_canonical h :
  canonical_keys h -> canonical_keys (httputil.removeHopByHopHeaders h).
Proof.
  intros Hh k vs Hk.
  destruct (removeHopByHopHeaders_only_removes h k) as [E | E];
    rewrite E in Hk; [by apply (Hh k vs) | discriminate].
Qed.

Lemma removeHopByHopHeaders_generic h :
  generic_type (http.Get h "Content-Type") ->
  generic_type (http.Get (httputil.removeHopByHopHeaders h) "Content-Type").
Proof.
  intros Hgen. unfold http.Get, http.values in *.
  destruct (removeHopByHopHeaders_only_removes h
              (textproto.CanonicalMIMEHeaderKey "Content-Type")) as [-> | ->];
    [exact Hgen | by left].
Qed.

(** Without a [Connection] header, exactly the nine hop-by-hop keys
    go. *)
Lemma removeHopByHopHeaders_no_Connection h k :
  http.values h "Connection" = [] ->
  httputil.removeHopByHopHeaders h !! k
  = if bool_decide (k ∈ httputil.hopHeaders) then None else h !! k.
Proof.
  intros Hconn. unfold httputil.removeHopByHopHeaders.
  rewrite Hconn. cbn [foldl httputil.hopHeaders]. unfold http.Del.
  repeat match goal with
         | |- context [textproto.CanonicalMIMEHeaderKey ?s] =>
             let r := eval vm_compute in (textproto.CanonicalMIMEHeaderKey s) in
             change (textproto.CanonicalMIMEHeaderKey s) with r
         end.
  case_bool_decide as Hk; unfold httputil.hopHeaders in Hk.
  - rewrite !elem_of_cons, elem_of_nil in Hk.
    decompose [or] Hk; subst; try done;
      repeat (rewrite lookup_delete_eq || rewrite lookup_delete_ne by done);
      reflexivity.
  - rewrite !not_elem_of_cons in Hk.
    destruct Hk as (? & ? & ? & ? & ? & ? & ? & ? & ? & _).
    by rewrite !lookup_delete_ne.
Qed.

End ExchangeFacts.

(** The exchange for an answer other than a protocol switch, up to the
    status line: one call of the transport, the informational responses,
    the rewriter's log lines, then the status of the upstream with the
    header the rewriter left; after it, only calls of the body copy. *)
Lemma proxy_relays
    (env : httputil.Env) (target : url.URL)
    (TypeByExtension : string -> string) (req outreq : http.Request.t)
    (infos : list (Z * gmap string (list string))) (ans : httputil.Answer) :
  httputil.outbound (main.Director target) req = inr outreq ->
  httputil.upstream env [] outreq = httputil.mkReply infos (inr ans) ->
  httputil.StatusCode ans ≠ 101 ->
  let res := main.ModifyResponse TypeByExtension (stripped_response ans outreq) in
  exists rest,
    httputil.calls (main.proxy target TypeByExtension env httputil.fresh req).2
    = (httputil.RoundTrip outreq :: map informational_call infos
       ++ map httputil.LogLine res.1.2
       ++ httputil.WriteHeader (httputil.StatusCode ans)
            (relayed_header ans res.1.1) :: rest)%list
    /\ Forall (fun c => is_body_call c = true) rest.
Proof.
  intros Hout Hreply Hstatus. cbv zeta.
  unfold main.proxy, httputil.ServeHTTP. rewrite Hout.
  cbn [httputil.history httputil.fresh httputil.header httputil.calls app].
  rewrite Hreply. cbn [httputil.informational httputil.result].
  rewrite informational_fold by reflexivity.
  apply Z.eqb_neq in Hstatus. unfold http.StatusSwitchingProtocols.
  rewrite Hstatus.
  unfold http.Response.set_Header.
  cbn [http.Response.StatusCode http.Response.Header http.Response.Body
       http.Response.Request].
  fold (stripped_response ans outreq).
  rewrite modifyResponse_continues, log_lines_fold.
  rewrite ModifyResponse_StatusCode.
  cbn [httputil.history httputil.header httputil.calls
       stripped_response http.Response.StatusCode].
  fold (stripped_response ans outreq).
  set (res := main.ModifyResponse TypeByExtension (stripped_response ans outreq)).
  match goal with
  | |- context [httputil.rw_WriteHeader ?c ?x] =>
      replace (httputil.rw_WriteHeader c x)
        with (httputil.mkExchange [outreq] (relayed_header ans res.1.1)
                (httputil.RoundTrip outreq :: map informational_call infos
                 ++ map httputil.LogLine res.1.2
                 ++ [httputil.WriteHeader c (relayed_header ans res.1.1)]))
        by (unfold relayed_header, httputil.rw_WriteHeader, httputil.record;
            destruct (0 <? _)%nat; cbn; by rewrite <- !app_assoc)
  end.
  match goal with
  | |- context [httputil.copyBuffer ?e ?r ?l ?re ?x] =>
      destruct (copyBuffer_calls e r l re x) as (rest & Hcalls & Hrest);
      destruct (httputil.copyBuffer e r l re x) as [[] x'] eqn:Hcopy
  end; cbn [snd httputil.calls] in Hcalls.
  - exists rest. split; [| exact Hrest].
    destruct (_ =? _)%nat; cbn [snd httputil.set_header httputil.calls];
      rewrite Hcalls; cbn; by rewrite <- !app_assoc.
  - exists rest. split; [| exact Hrest].
    cbn [snd]. rewrite Hcalls. cbn. by rewrite <- !app_assoc.
Qed.

(** C5. When [RoundTrip] returns an error, which is how a refused
    connection, a timeout and a reset before the response header
    arrive, the handler has called the transport once, logs the error
    and answers the caller with status 502 under an empty header, with
    no [Write]: the calls of the exchange are exactly these, after the
    informational responses relayed before the failure. *)
Theorem proxy_answers_failed_round_trip
    (env : httputil.Env) (target : url.URL)
    (TypeByExtension : string -> string) (req outreq : http.Request.t)
    (infos : list (Z * gmap string (list string))) (err : string) :
  httputil.outbound (main.Director target) req = inr outreq ->
  httputil.upstream env [] outreq = httputil.mkReply infos (inl err) ->
  main.proxy target TypeByExtension env httputil.fresh req
  = (httputil.Returned,
     httputil.mkExchange [outreq] ∅
       (httputil.RoundTrip outreq :: map informational_call infos
        ++ [httputil.LogError "Proxy error: %v" (httputil.TransportError err);
            httputil.WriteHeader 502 ∅])).
Proof.
  intros Hout Hreply.
  unfold main.proxy, httputil.ServeHTTP. rewrite Hout.
  cbn [httputil.history httputil.fresh httputil.header httputil.calls app].
  rewrite Hreply. cbn [httputil.informational httputil.result].
  rewrite informational_fold by reflexivity.
  unfold main.ErrorHandler, httputil.rw_WriteHeader, httputil.record.
  cbn. by rewrite <- app_assoc.
Qed.

Lemma proxy_answers_failed_round_trip_witness :
  exists outreq : http.Request.t,
    httputil.outbound (main.Director example_target) example_request
    = inr outreq
    /\ writer_calls
         (main.proxy example_target mime.builtin_TypeByExtension
            refusing_env httputil.fresh example_request).2
       = [httputil.WriteHeader 502 ∅]
    /\ httputil.history
         (main.proxy example_target mime.builtin_TypeByExtension
            refusing_env httputil.fresh example_request).2
       = [outreq].
Proof.
  destruct (httputil.outbound (main.Director example_target) example_request)
    as [up | outreq] eqn:Hout; [vm_compute in Hout; discriminate Hout |].
  exists outreq. split; [reflexivity |].
  rewrite (proxy_answers_failed_round_trip refusing_env example_target
             mime.builtin_TypeByExtension example_request outreq []
             "dial tcp 127.0.0.1:8443: connect: connection refused"
             Hout eq_refl).
  split; reflexivity.
Defined.

(** A forwarding failure that is not answered with 502: the upstream
    sends the header and one byte, then the connection is reset.  The
    caller has received status 200 and that byte; the handler logs the
    read error and aborts, and the error handler is not called. *)
Lemma proxy_reset_mid_response_sends_no_502 :
  let '(e, x) :=
    main.proxy example_target mime.builtin_TypeByExtension reset_env
      httputil.fresh example_request in
  e = httputil.Aborted
  /\ writer_calls x
     = [httputil.WriteHeader 200
          (<["Content-Type" := ["text/javascript; charset=utf-8"]]> ∅);
        httputil.Write "x" None]
  /\ error_logs x
     = [httputil.LogReadError
          "httputil: ReverseProxy read error during body copy: %v"
          (httputil.ReadFailed "connection reset by peer")].
Proof. vm_compute. repeat split. Qed.



(** ** Strings and [url.Parse] *)

Section StringFacts.
Implicit Types (s t : string) (c d : ascii) (p q : ascii -> bool).

Lemma all_app p s t : strings.all p (s +:+ t) = strings.all p s && strings.all p t.
Proof. induction s as [| c s IH]; simpl; [done |]. by rewrite IH, andb_assoc. Qed.

Lemma all_impl p q s :
  (forall c, p c = true -> q c = true) ->
  strings.all p s = true -> strings.all q s = true.
Proof.
  intros Hpq. induction s as [| c s IH]; simpl; [done |].
  rewrite !andb_true_iff. intros [Hc Hs]. auto.
Qed.

Lemma HasPrefix_byte c d s :
  strings.HasPrefix (String c s) (String d "") = Ascii.eqb c d.
Proof. cbn [strings.HasPrefix]. apply andb_true_r. Qed.

Lemma Index_cons c s t :
  strings.Index (String c s) t
  = if strings.HasPrefix (String c s) t then 0
    else if strings.Index s t <? 0 then -1 else strings.Index s t + 1.
Proof. reflexivity. Qed.

Lemma Index_lower s t : -1 <= strings.Index s t.
Proof.
  induction s as [| c s IH].
  - destruct t; simpl; lia.
  - rewrite Index_cons.
    destruct (strings.HasPrefix (String c s) t); [lia |].
    destruct (strings.Index s t <? 0) eqn:E; lia.
Qed.

Lemma Index_cons_ne c d s :
  Ascii.eqb c d = false ->
  strings.Index (String c s) (String d "")
  = if strings.Index s (String d "") <? 0 then -1
    else strings.Index s (String d "") + 1.
Proof. intros H. by rewrite Index_cons, HasPrefix_byte, H. Qed.

Lemma Index_absent d s :
  strings.all (fun c => negb (Ascii.eqb c d)) s = true ->
  strings.Index s (String d "") = -1.
Proof.
  induction s as [| c s IH]; [done |].
  simpl strings.all. rewrite andb_true_iff, negb_true_iff. intros [Hc Hs].
  rewrite Index_cons_ne by done. by rewrite IH.
Qed.

Lemma LastIndex_cons c s t :
  strings.LastIndex (String c s) t
  = if 0 <=? strings.LastIndex s t then strings.LastIndex s t + 1
    else if strings.HasPrefix (String c s) t then 0 else -1.
Proof. reflexivity. Qed.

Lemma LastIndex_absent d s :
  strings.all (fun c => negb (Ascii.eqb c d)) s = true ->
  strings.LastIndex s (String d "") = -1.
Proof.
  induction s as [| c s IH]; [done |].
  simpl strings.all. rewrite andb_true_iff, negb_true_iff. intros [Hc Hs].
  by rewrite LastIndex_cons, IH, HasPrefix_byte, Hc.
Qed.

Lemma LastIndex_app_sep d s t :
  strings.all (fun c => negb (Ascii.eqb c d)) t = true ->
  strings.LastIndex (s +:+ String d t) (String d "") = strings.len s.
Proof.
  intros Ht. induction s as [| c s IH].
  - change ("" +:+ String d t) with (String d t).
    by rewrite LastIndex_cons, LastIndex_absent, HasPrefix_byte, Ascii.eqb_refl.
  - change (String c s +:+ String d t) with (String c (s +:+ String d t)).
    rewrite LastIndex_cons, IH. unfold strings.len. simpl String.length.
    destruct (0 <=? Z.of_nat (String.length s)) eqn:E; lia.
Qed.

Lemma drop_app_length s t : strings.drop (String.length s) (s +:+ t) = t.
Proof. induction s as [| c s IH]; simpl; done. Qed.

Lemma CountByte_absent d s :
  strings.all (fun c => negb (Ascii.eqb c d)) s = true ->
  strings.CountByte s d = 0.
Proof.
  induction s as [| c s IH]; [done |].
  simpl. rewrite andb_true_iff, negb_true_iff. intros [-> Hs]. by rewrite IH.
Qed.

Lemma Cut_absent d s :
  strings.all (fun c => negb (Ascii.eqb c d)) s = true ->
  strings.Cut s (String d "") = (s, "", false).
Proof. intros H. unfold strings.Cut. by rewrite Index_absent. Qed.

Lemma Cut_cons_ne c d s :
  Ascii.eqb c d = false ->
  strings.Cut (String c s) (String d "")
  = let '(a, b, found) := strings.Cut s (String d "") in (String c a, b, found).
Proof.
  intros H. unfold strings.Cut. rewrite Index_cons_ne by done.
  pose proof (Index_lower s (String d "")) as Hlow.
  destruct (strings.Index s (String d "") <? 0) eqn:E.
  - assert (strings.Index s (String d "") = -1) as -> by lia. reflexivity.
  - apply Z.ltb_ge in E.
    replace (0 <=? strings.Index s (String d "") + 1) with true by lia.
    replace (0 <=? strings.Index s (String d "")) with true by lia.
    unfold strings.slice_to, strings.slice_from, strings.len. simpl String.length.
    replace (Z.to_nat (strings.Index s (String d "") + 1))
      with (S (Z.to_nat (strings.Index s (String d "")))) by lia.
    replace (Z.to_nat (strings.Index s (String d "") + 1 + Z.of_nat 1))
      with (S (Z.to_nat (strings.Index s (String d "") + Z.of_nat 1))) by lia.
    reflexivity.
Qed.

End StringFacts.

Lemma host_byte_not_special c :
  host_byte c = true ->
  not_byte "#" c = true /\ not_byte "?" c = true /\ not_byte "/" c = true
  /\ not_byte "@" c = true /\ not_byte "%" c = true /\ not_CTL c = true.
Proof. intros H. byte_cases c; repeat split. Qed.

Lemma digit_host_byte c :
  Char.is_digit c = true -> host_byte c = true /\ not_byte ":" c = true.
Proof. intros H. byte_cases c; repeat split. Qed.

Lemma unescape_cons c rest mode :
  url.unescape (String c rest) mode
  = if Ascii.eqb c "%" then
      match rest with
      | String a (String b rest') =>
          if negb (url.ishex a && url.ishex b) then None
          else if match mode with
                  | url.encodeHost =>
                      (url.unhex a <? 8)%N
                      && negb (Ascii.eqb a "2" && Ascii.eqb b "5")
                  | url.encodeZone =>
                      negb (Ascii.eqb a "2" && Ascii.eqb b "5")
                      && negb (Ascii.eqb (url.hex_byte a b) " ")
                      && url.shouldEscape_host (url.hex_byte a b)
                  | _ => false
                  end
               then None
               else option_map (String (url.hex_byte a b)) (url.unescape rest' mode)
      | _ => None
      end
    else if Ascii.eqb c "+" then
      option_map
        (String (match mode with url.encodeQueryComponent => " "%char
                 | _ => "+"%char end))
        (url.unescape rest mode)
    else if url.is_host_mode mode && (Char.code c <? 128)%N
            && url.shouldEscape_host c
    then None
    else option_map (String c) (url.unescape rest mode).
Proof.
  destruct c as [[] [] [] [] [] [] [] []]; reflexivity.
Qed.

Lemma unescape_host_id s :
  strings.all host_byte s = true -> url.unescape s url.encodeHost = Some s.
Proof.
  induction s as [| c s IH]; [done |].
  simpl strings.all. rewrite andb_true_iff. intros [Hc Hs].
  rewrite unescape_cons, IH by done.
  destruct (host_byte_not_special c Hc) as (_ & _ & _ & _ & Hpct & _).
  unfold not_byte in Hpct. apply negb_true_iff in Hpct. rewrite Hpct.
  destruct (Ascii.eqb c "+") eqn:Hplus.
  - apply Ascii.eqb_eq in Hplus. by subst c.
  - unfold host_byte in Hc. apply negb_true_iff in Hc.
    cbn [url.is_host_mode andb]. by rewrite Hc.
Qed.

Lemma getScheme_http s : url.getScheme ("http://" +:+ s) = Some ("http", "//" +:+ s).
Proof. reflexivity. Qed.

Lemma all_not_byte_of_host x t :
  (forall c, host_byte c = true -> not_byte x c = true) ->
  strings.all host_byte t = true -> strings.all (not_byte x) t = true.
Proof. intros Hx. by apply all_impl. Qed.

Lemma parseHost_plain t :
  strings.all host_byte t = true ->
  strings.HasPrefix t "[" = false ->
  url.validOptionalPort (strings.slice_from t (strings.LastIndex t ":")) = true ->
  url.parseHost t = Some t.
Proof.
  intros Ht Hbr Hport. unfold url.parseHost.
  rewrite Hbr, Hport. rewrite andb_false_r. by apply unescape_host_id.
Qed.

Lemma parseAuthority_plain t :
  strings.all host_byte t = true ->
  strings.HasPrefix t "[" = false ->
  url.validOptionalPort (strings.slice_from t (strings.LastIndex t ":")) = true ->
  url.parseAuthority t = Some (None, t).
Proof.
  intros Ht Hbr Hport. unfold url.parseAuthority.
  rewrite (LastIndex_absent "@") by
    (apply all_not_byte_of_host; [intros c Hc; apply host_byte_not_special, Hc | done]).
  change (-1 <? 0) with true. cbv iota.
  by rewrite parseHost_plain.
Qed.

Lemma parse_plain_authority t :
  strings.all host_byte t = true ->
  strings.HasPrefix t "[" = false ->
  url.validOptionalPort (strings.slice_from t (strings.LastIndex t ":")) = true ->
  url.parse ("http://" +:+ t) false
  = Some (url.mkURL "http" "" None t "" false false "" "").
Proof.
  intros Ht Hbr Hport.
  pose proof (fun x Hx => all_not_byte_of_host x t Hx Ht) as Hno.
  assert (Hq : strings.all (not_byte "?") t = true)
    by (apply Hno; intros c Hc; apply host_byte_not_special, Hc).
  assert (Hs : strings.all (not_byte "/") t = true)
    by (apply Hno; intros c Hc; apply host_byte_not_special, Hc).
  assert (Hctl : strings.all not_CTL t = true).
  { revert Ht. apply all_impl. intros c Hc. apply host_byte_not_special, Hc. }
  unfold url.parse.
  replace (url.stringContainsCTLByte ("http://" +:+ t)) with false
    by (unfold url.stringContainsCTLByte; symmetry; apply negb_false_iff;
        exact Hctl).
  change (String.eqb ("http://" +:+ t) "") with false.
  change (String.eqb ("http://" +:+ t) "*") with false.
  cbv iota. cbn [andb].
  rewrite getScheme_http.
  change (strings.ToLower "http") with "http".
  replace (strings.CountByte ("//" +:+ t) "?") with 0
    by (symmetry; apply CountByte_absent; exact Hq).
  rewrite andb_false_r.
  rewrite (Cut_absent "?") by exact Hq.
  cbv iota beta.
  change (strings.HasPrefix ("//" +:+ t) "/") with true.
  change (strings.HasPrefix ("//" +:+ t) "//") with true.
  change (String.eqb "http" "") with false.
  cbn [negb andb orb].
  change (strings.slice_from ("//" +:+ t) 2) with t.
  rewrite (Index_absent "/") by exact Hs.
  change (0 <=? -1) with false. cbv iota beta.
  rewrite parseAuthority_plain by done.
  reflexivity.
Qed.

Lemma Parse_plain_authority t :
  strings.all host_byte t = true ->
  strings.HasPrefix t "[" = false ->
  url.validOptionalPort (strings.slice_from t (strings.LastIndex t ":")) = true ->
  url.Parse ("http://" +:+ t)
  = Some (url.mkURL "http" "" None t "" false false "" "").
Proof.
  intros Ht Hbr Hport. unfold url.Parse.
  rewrite (Cut_absent "#").
  - rewrite parse_plain_authority by assumption. reflexivity.
  - change (strings.all (not_byte "#") t = true).
    apply all_not_byte_of_host; [| exact Ht].
    intros c Hc. apply host_byte_not_special, Hc.
Qed.

Lemma Parse_host_port h d :
  plain_host h = true ->
  strings.all Char.is_digit d = true ->
  url.Parse ("http://" +:+ h +:+ ":" +:+ d)
  = Some (url.mkURL "http" "" None (h +:+ ":" +:+ d) "" false false "" "").
Proof.
  unfold plain_host. rewrite andb_true_iff, negb_true_iff.
  intros [Hh Hbracket] Hd.
  change ("http://" +:+ h +:+ ":" +:+ d) with ("http://" +:+ (h +:+ String ":" d)).
  change (h +:+ ":" +:+ d) with (h +:+ String ":" d).
  apply Parse_plain_authority.
  - rewrite all_app, Hh. cbn [strings.all andb].
    change (host_byte ":") with true. cbn [andb].
    revert Hd. apply all_impl. intros c Hc. by apply digit_host_byte.
  - destruct h as [| c h]; [reflexivity |].
    change (String c h +:+ String ":" d) with (String c (h +:+ String ":" d)).
    rewrite HasPrefix_byte. by rewrite HasPrefix_byte in Hbracket.
  - rewrite LastIndex_app_sep.
    + unfold strings.slice_from, strings.len. rewrite Nat2Z.id, drop_app_length.
      cbn [url.validOptionalPort]. by rewrite Ascii.eqb_refl.
    + revert Hd. apply all_impl. intros c Hc. by apply digit_host_byte.
Qed.

(** [%d] of a number that is not negative prints digits only. *)
Lemma string_of_uint_digits (u : Decimal.uint) :
  strings.all Char.is_digit (NilEmpty.string_of_uint u) = true.
Proof. induction u; simpl; [done | by rewrite IHu ..]. Qed.

Lemma Sprintd_digits (n : Z) :
  0 <= n -> strings.all Char.is_digit (fmt.Sprintd n) = true.
Proof.
  intros Hn. unfold fmt.Sprintd.
  destruct n as [| p | p]; [reflexivity | | lia].
  cbn [Z.to_int NilZero.string_of_int]. unfold NilZero.string_of_uint.
  destruct (Pos.to_uint p) eqn:E; [reflexivity | rewrite <- E ..];
    apply string_of_uint_digits.
Qed.

Lemma parse_http_scheme a viaRequest u :
  url.parse ("http://" +:+ a) viaRequest = Some u -> url.Scheme u = "http".
Proof.
  unfold url.parse. rewrite getScheme_http.
  change (strings.ToLower "http") with "http".
  intros H. repeat case_match; simplify_eq; reflexivity.
Qed.

Lemma Parse_http_scheme s u :
  url.Parse ("http://" +:+ s) = Some u -> url.Scheme u = "http".
Proof.
  unfold url.Parse.
  change ("http://" +:+ s)
    with (String "h" (String "t" (String "t" (String "p" (String ":"
            (String "/" (String "/" s))))))).
  rewrite !Cut_cons_ne by reflexivity.
  destruct (strings.Cut s "#") as [[a frag] found]. cbv iota zeta beta.
  change (String "h" (String "t" (String "t" (String "p" (String ":"
            (String "/" (String "/" a)))))))
    with ("http://" +:+ a).
  destruct (url.parse ("http://" +:+ a) false) as [u0 |] eqn:Hparse; [| done].
  apply parse_http_scheme in Hparse.
  intros H. repeat case_match; simplify_eq; done.
Qed.

(** ** The forwarded scheme *)

(** C10. Whatever the configuration, once [main] has a target the value
    the Director appends to [X-Forwarded-Proto] is the string [http], the
    scheme of the rewritten URL: the values of the header afterwards are
    the client's values followed by [http]. *)
Theorem Director_forwarded_proto_is_http
    (config : main.Config) (target : url.URL) (req : http.Request.t) :
  main.parse_target config = Some target ->
  http.values (http.Request.Header (main.Director target req))
    (textproto.CanonicalMIMEHeaderKey "X-Forwarded-Proto")
  = (http.values (http.Request.Header req)
       (textproto.CanonicalMIMEHeaderKey "X-Forwarded-Proto")
     ++ ["http"])%list.
Proof.
  intros Hparse.
  apply Parse_http_scheme in Hparse.
  rewrite <- Hparse. apply Director_values_Forwarded_Proto.
Qed.

Lemma Director_forwarded_proto_is_http_witness :
  main.parse_target example_config = Some example_target
  /\ http.values
       (http.Request.Header (main.Director example_target example_request))
       (textproto.CanonicalMIMEHeaderKey "X-Forwarded-Proto")
     = ["http"].
Proof.
  split; [vm_compute; reflexivity |].
  rewrite (Director_forwarded_proto_is_http example_config example_target
             example_request) by (vm_compute; reflexivity).
  vm_compute. reflexivity.
Defined.

(** ** Start-up *)

Lemma missingFlags_nil_iff (config : main.Config) :
  main.missingFlags config = [] <-> complete config.
Proof.
  unfold main.missingFlags, complete.
  flag_tests config; cbn [app]; split;
    solve [ intros H; discriminate H
          | intros _; repeat split; assumption
          | intros (? & ? & ? & ? & ? & ?); contradiction ].
Qed.

(** X1. [parseFlags] returns the configuration exactly when each of the
    six flags has a value other than the zero value of its type (a
    negative or an oversized port counts as set); in every other case it
    ends the process with exit code 1 after the line that lists the
    missing flags and the usage text. *)
Theorem parseFlags_returns_iff_complete (config : main.Config) :
  (main.parseFlags config = main.Return config <-> complete config)
  /\ (main.parseFlags config = main.Return config
      \/ main.parseFlags config
         = main.Exit 1
             [main.Text ("Error: missing required flags: "
                         +:+ main.show_strings (main.missingFlags config));
              main.Usage]).
Proof.
  unfold main.parseFlags.
  destruct (main.missingFlags config) as [| name names] eqn:Hmissing.
  - cbn. split; [| by left].
    split; [intros _; by apply missingFlags_nil_iff | done].
  - replace (0 <? Z.of_nat (length (name :: names))) with true
      by (symmetry; apply Z.ltb_lt; cbn [length]; lia).
    split; [| by right].
    split; [discriminate |].
    intros Hc. apply missingFlags_nil_iff in Hc. congruence.
Qed.

Lemma flag_names_NoDup : NoDup flag_names.
Proof.
  unfold flag_names.
  repeat (apply NoDup_cons; split;
          [rewrite ?elem_of_cons, elem_of_nil; intros H;
           decompose [or] H; (discriminate || contradiction) |]).
  apply NoDup_nil_2.
Qed.

Lemma missingFlags_sublist (config : main.Config) :
  main.missingFlags config `sublist_of` flag_names.
Proof.
  unfold main.missingFlags, flag_names.
  flag_tests config; cbn [app];
    repeat first [ apply sublist_nil | apply sublist_skip; [] | apply sublist_cons ];
    apply sublist_nil_l.
Qed.

(** X2. The list that [parseFlags] reports holds the name of a flag
    exactly when the field of that flag is unset; the names come in the
    order [host], [port], [proxy-for-host], [proxy-for-port], [cert],
    [key], each at most once. *)
Theorem missingFlags_names_exactly_the_unset (config : main.Config) :
  (forall name : string,
      name ∈ main.missingFlags config
      <-> (name = "host" /\ main.Host config = "")
          \/ (name = "port" /\ main.Port config = 0)
          \/ (name = "proxy-for-host" /\ main.ProxyHost config = "")
          \/ (name = "proxy-for-port" /\ main.ProxyPort config = 0)
          \/ (name = "cert" /\ main.CertFile config = "")
          \/ (name = "key" /\ main.KeyFile config = ""))
  /\ main.missingFlags config `sublist_of` flag_names
  /\ NoDup (main.missingFlags config).
Proof.
  split; [| split].
  - unfold main.missingFlags.
    flag_tests config; cbn [app]; intros name;
      rewrite ?elem_of_cons, ?elem_of_nil;
      (split;
       [ intros H; repeat (destruct H as [-> | H]; [tauto |]); contradiction
       | intros H; decompose [and or] H; subst; try contradiction; tauto ]).
  - apply missingFlags_sublist.
  - eapply sublist_NoDup; [apply flag_names_NoDup | apply missingFlags_sublist].
Qed.

(** [url.parse] on [http://t] when every byte of [t] may stand in a host:
    no fragment, query or path is cut off, and the result is decided by
    [parseAuthority] alone. *)
Lemma parse_http_authority t :
  strings.all host_byte t = true ->
  url.parse ("http://" +:+ t) false
  = match url.parseAuthority t with
    | None => None
    | Some (user, host) =>
        Some (url.mkURL "http" "" user host "" false false "" "")
    end.
Proof.
  intros Ht.
  pose proof (fun x Hx => all_not_byte_of_host x t Hx Ht) as Hno.
  assert (Hq : strings.all (not_byte "?") t = true)
    by (apply Hno; intros c Hc; apply host_byte_not_special, Hc).
  assert (Hs : strings.all (not_byte "/") t = true)
    by (apply Hno; intros c Hc; apply host_byte_not_special, Hc).
  assert (Hctl : strings.all not_CTL t = true).
  { revert Ht. apply all_impl. intros c Hc. apply host_byte_not_special, Hc. }
  unfold url.parse.
  replace (url.stringContainsCTLByte ("http://" +:+ t)) with false
    by (unfold url.stringContainsCTLByte; symmetry; apply negb_false_iff;
        exact Hctl).
  change (String.eqb ("http://" +:+ t) "") with false.
  change (String.eqb ("http://" +:+ t) "*") with false.
  cbv iota. cbn [andb].
  rewrite getScheme_http.
  change (strings.ToLower "http") with "http".
  replace (strings.CountByte ("//" +:+ t) "?") with 0
    by (symmetry; apply CountByte_absent; exact Hq).
  rewrite andb_false_r.
  rewrite (Cut_absent "?") by exact Hq.
  cbv iota beta.
  change (strings.HasPrefix ("//" +:+ t) "/") with true.
  change (strings.HasPrefix ("//" +:+ t) "//") with true.
  change (String.eqb "http" "") with false.
  cbn [negb andb orb].
  change (strings.slice_from ("//" +:+ t) 2) with t.
  rewrite (Index_absent "/") by exact Hs.
  change (0 <=? -1) with false. cbv iota beta.
  destruct (url.parseAuthority t) as [[user host] |]; reflexivity.
Qed.

Lemma Parse_http_authority t :
  strings.all host_byte t = true ->
  url.Parse ("http://" +:+ t)
  = match url.parseAuthority t with
    | None => None
    | Some (user, host) =>
        Some (url.mkURL "http" "" user host "" false false "" "")
    end.
Proof.
  intros Ht. unfold url.Parse.
  rewrite (Cut_absent "#").
  - rewrite parse_http_authority by exact Ht.
    destruct (url.parseAuthority t) as [[user host] |]; reflexivity.
  - change (strings.all (not_byte "#") t = true).
    apply all_not_byte_of_host; [| exact Ht].
    intros c Hc. apply host_byte_not_special, Hc.
Qed.

(** [%d] of a negative number: a minus sign, then digits. *)
Lemma Sprintd_negative (n : Z) :
  n < 0 ->
  exists digits,
    fmt.Sprintd n = String "-" digits
    /\ strings.all Char.is_digit digits = true.
Proof.
  intros Hn. destruct n as [| p | p]; [lia | lia |].
  unfold fmt.Sprintd. cbn [Z.to_int NilZero.string_of_int].
  eexists. split; [reflexivity |].
  unfold NilZero.string_of_uint.
  destruct (Pos.to_uint p) eqn:E; [reflexivity | rewrite <- E ..];
    apply string_of_uint_digits.
Qed.

Lemma Parse_negative_port h n :
  plain_host h = true ->
  n < 0 ->
  url.Parse ("http://" +:+ h +:+ ":" +:+ fmt.Sprintd n) = None.
Proof.
  unfold plain_host. rewrite andb_true_iff, negb_true_iff.
  intros [Hh Hbracket] Hn.
  destruct (Sprintd_negative n Hn) as (digits & -> & Hdigits).
  assert (Hd : strings.all host_byte digits = true
               /\ strings.all (not_byte ":") digits = true).
  { split; revert Hdigits; apply all_impl; intros c Hc; by apply digit_host_byte. }
  destruct Hd as [Hdhost Hdcolon].
  change ("http://" +:+ h +:+ ":" +:+ String "-" digits)
    with ("http://" +:+ (h +:+ String ":" (String "-" digits))).
  set (t := h +:+ String ":" (String "-" digits)).
  assert (Ht : strings.all host_byte t = true).
  { unfold t. rewrite all_app, Hh. cbn [strings.all andb].
    change (host_byte ":") with true. change (host_byte "-") with true.
    exact Hdhost. }
  rewrite Parse_http_authority by exact Ht.
  unfold url.parseAuthority.
  rewrite (LastIndex_absent "@") by
    (apply all_not_byte_of_host; [intros c Hc; apply host_byte_not_special, Hc
                                 | exact Ht]).
  change (-1 <? 0) with true. cbv iota.
  unfold url.parseHost.
  replace (strings.HasPrefix t "[") with false.
  2:{ unfold t. destruct h as [| c h]; [reflexivity |].
      change (String c h +:+ String ":" (String "-" digits))
        with (String c (h +:+ String ":" (String "-" digits))).
      rewrite HasPrefix_byte. by rewrite HasPrefix_byte in Hbracket. }
  unfold t. rewrite LastIndex_app_sep
    by (change (strings.all (not_byte ":") digits = true); exact Hdcolon).
  unfold strings.slice_from, strings.len. rewrite Nat2Z.id, drop_app_length.
  replace (Z.of_nat (String.length h) =? -1) with false
    by (symmetry; apply Z.eqb_neq; lia).
  reflexivity.
Qed.

Lemma parseFlags_complete (config : main.Config) :
  complete config -> main.parseFlags config = main.Return config.
Proof.
  intros (Hhost & Hport & Hphost & Hpport & Hcert & Hkey).
  unfold main.parseFlags, main.missingFlags.
  apply String.eqb_neq in Hhost, Hphost, Hcert, Hkey.
  apply Z.eqb_neq in Hport, Hpport.
  by rewrite Hhost, Hport, Hphost, Hpport, Hcert, Hkey.
Qed.

(** X3. A negative upstream port gets through the flag checks, which
    only refuse 0, and stops [main] at [url.Parse]: for a complete
    configuration with a plain upstream host and existing certificate
    and key files, the process exits with code 1 on the URL error and no
    server is built. *)
Theorem run_negative_upstream_port_is_fatal
    (Stat : string -> option main.stat_error) (config : main.Config) :
  complete config ->
  plain_host (main.ProxyHost config) = true ->
  main.ProxyPort config < 0 ->
  main.IsNotExist (Stat (main.CertFile config)) = false ->
  main.IsNotExist (Stat (main.KeyFile config)) = false ->
  main.parseFlags config = main.Return config
  /\ main.run Stat config
     = main.Exit 1 [main.UrlError (main.targetURL config)].
Proof.
  intros Hcomplete Hhost Hport Hcert Hkey.
  pose proof (parseFlags_complete config Hcomplete) as Hflags.
  split; [exact Hflags |].
  unfold main.run. rewrite Hflags. cbn [main.bind].
  unfold main.startup. rewrite Hcert, Hkey.
  unfold main.targetURL. by rewrite Parse_negative_port.
Qed.

Lemma run_negative_upstream_port_is_fatal_witness :
  complete example_negative_port_config
  /\ main.ProxyPort example_negative_port_config < 0
  /\ main.run example_Stat example_negative_port_config
     = main.Exit 1 [main.UrlError "http://127.0.0.1:-1"].
Proof.
  assert (Hc : complete example_negative_port_config)
    by (repeat split; discriminate).
  split; [exact Hc |]. split; [reflexivity |].
  apply (run_negative_upstream_port_is_fatal example_Stat
           example_negative_port_config Hc);
    reflexivity.
Defined.

(** X4. For a complete configuration with a plain upstream host and an
    upstream port that is not negative, [main] reaches the server value
    (listening on [Host:Port], proxying to [http://ProxyHost:ProxyPort],
    timeouts 15 s, 15 s and 60 s) exactly when neither [os.Stat] reports
    a missing file; a missing certificate is reported first, a missing
    key second, each with exit code 1.  A stat error of another kind
    does not stop start-up here. *)
Theorem run_serves_well_formed_config
    (Stat : string -> option main.stat_error) (config : main.Config) :
  complete config ->
  plain_host (main.ProxyHost config) = true ->
  0 <= main.ProxyPort config ->
  (main.run Stat config = main.Return (expected_server config)
   <-> Stat (main.CertFile config) ≠ Some main.ErrNotExist
       /\ Stat (main.KeyFile config) ≠ Some main.ErrNotExist)
  /\ (Stat (main.CertFile config) = Some main.ErrNotExist ->
      main.run Stat config
      = main.Exit 1
          [main.Text ("Certificate file not found: " +:+ main.CertFile config)])
  /\ (Stat (main.CertFile config) ≠ Some main.ErrNotExist ->
      Stat (main.KeyFile config) = Some main.ErrNotExist ->
      main.run Stat config
      = main.Exit 1
          [main.Text ("Key file not found: " +:+ main.KeyFile config)]).
Proof.
  intros Hcomplete Hhost Hport.
  unfold main.run. rewrite (parseFlags_complete config Hcomplete).
  cbn [main.bind]. unfold main.startup, main.targetURL.
  rewrite Parse_host_port by (try apply Sprintd_digits; assumption).
  assert (Hnot : forall e, main.IsNotExist e = true <-> e = Some main.ErrNotExist).
  { intros [[| msg] |]; cbn; split; congruence. }
  destruct (main.IsNotExist (Stat (main.CertFile config))) eqn:Hcert;
    [| destruct (main.IsNotExist (Stat (main.KeyFile config))) eqn:Hkey].
  - apply Hnot in Hcert. split; [| split].
    + split; [discriminate | intros [? _]; contradiction].
    + reflexivity.
    + intros; contradiction.
  - apply Hnot in Hkey.
    assert (Hc : Stat (main.CertFile config) ≠ Some main.ErrNotExist)
      by (intros E; apply Hnot in E; congruence).
    split; [| split].
    + split; [discriminate | intros [_ ?]; contradiction].
    + intros; contradiction.
    + reflexivity.
  - assert (Hc : Stat (main.CertFile config) ≠ Some main.ErrNotExist)
      by (intros E; apply Hnot in E; congruence).
    assert (Hk : Stat (main.KeyFile config) ≠ Some main.ErrNotExist)
      by (intros E; apply Hnot in E; congruence).
    split; [| split].
    + split; [done | reflexivity].
    + intros; contradiction.
    + intros; contradiction.
Qed.

Lemma run_serves_well_formed_config_witness :
  complete example_config
  /\ plain_host (main.ProxyHost example_config) = true
  /\ 0 <= main.ProxyPort example_config
  /\ main.run example_Stat example_config
     = main.Return
         (main.mkServer "0.0.0.0:443" example_target
            15000000000 15000000000 60000000000).
Proof.
  assert (Hc : complete example_config)
    by (repeat split; discriminate).
  split; [exact Hc |]. split; [vm_compute; reflexivity |].
  split; [vm_compute; discriminate |].
  destruct (run_serves_well_formed_config example_Stat example_config Hc)
    as ((_ & Hrun) & _).
  - vm_compute. reflexivity.
  - vm_compute. discriminate.
  - rewrite Hrun by (split; discriminate). reflexivity.
Defined.

(** ** The upstream target *)

Section AuthorityFacts.
Implicit Types (s t : string) (c d : ascii).

Lemma authority_byte_not_special c :
  authority_byte c = true ->
  not_byte "/" c = true /\ not_byte "?" c = true /\ not_byte "#" c = true
  /\ not_byte "@" c = true /\ not_byte "%" c = true.
Proof. intros H. byte_cases c; repeat split. Qed.

Lemma all_take p s n :
  strings.all p s = true -> strings.all p (strings.take n s) = true.
Proof.
  revert n. induction s as [| c s IH]; intros [| n]; simpl; try done.
  rewrite !andb_true_iff. intros [Hc Hs]. split; [done | by apply IH].
Qed.

(** A substring whose first byte does not occur is not found. *)
Lemma Index_absent_first d rest s :
  strings.all (not_byte d) s = true ->
  strings.Index s (String d rest) = -1.
Proof.
  induction s as [| c s IH]; [done |].
  simpl strings.all. rewrite andb_true_iff. intros [Hc Hs].
  unfold not_byte in Hc. apply negb_true_iff in Hc.
  rewrite Index_cons. cbn [strings.HasPrefix]. rewrite Hc. cbn [andb].
  by rewrite IH.
Qed.

(** Without an escape mark, [unescape] in host mode hands the string
    back or fails. *)
Lemma unescape_host_no_percent s r :
  strings.all (not_byte "%") s = true ->
  url.unescape s url.encodeHost = Some r -> r = s.
Proof.
  revert r. induction s as [| c s IH]; intros r; [cbn; congruence |].
  simpl strings.all. rewrite andb_true_iff. intros [Hc Hs].
  unfold not_byte in Hc. apply negb_true_iff in Hc.
  rewrite unescape_cons, Hc.
  destruct (Ascii.eqb c "+") eqn:Hplus.
  - apply Ascii.eqb_eq in Hplus. subst c.
    destruct (url.unescape s url.encodeHost) as [r' |] eqn:Hr; [| discriminate].
    cbn. intros [= <-]. by rewrite (IH r').
  - destruct (_ && _ && _); [discriminate |].
    destruct (url.unescape s url.encodeHost) as [r' |] eqn:Hr; [| discriminate].
    cbn. intros [= <-]. by rewrite (IH r').
Qed.

Lemma parseHost_literal t host :
  strings.all (not_byte "%") t = true ->
  url.parseHost t = Some host -> host = t.
Proof.
  intros Ht. unfold url.parseHost.
  destruct (strings.HasPrefix t "[").
  - destruct (_ <? 0); [discriminate |].
    destruct (negb _); [discriminate |].
    rewrite Index_absent_first by (by apply all_take).
    change (0 <=? -1) with false. cbv iota.
    by apply unescape_host_no_percent.
  - destruct (_ && _); [discriminate |].
    by apply unescape_host_no_percent.
Qed.

Lemma parseAuthority_literal t user host :
  strings.all (not_byte "@") t = true ->
  strings.all (not_byte "%") t = true ->
  url.parseAuthority t = Some (user, host) -> user = None /\ host = t.
Proof.
  intros Hat Hpct. unfold url.parseAuthority.
  rewrite (LastIndex_absent "@") by exact Hat.
  change (-1 <? 0) with true. cbv iota.
  destruct (url.parseHost t) as [host' |] eqn:Hhost; [| discriminate].
  intros [= <- <-]. split; [done |]. by apply parseHost_literal.
Qed.

(** [url.parse] on [http://t] when [t] holds no query or path mark:
    nothing is cut off, and past the control-byte check the result is
    decided by [parseAuthority]. *)
Lemma parse_http_uncut t :
  strings.all (not_byte "?") t = true ->
  strings.all (not_byte "/") t = true ->
  url.parse ("http://" +:+ t) false
  = if url.stringContainsCTLByte ("http://" +:+ t) then None
    else match url.parseAuthority t with
         | None => None
         | Some (user, host) =>
             Some (url.mkURL "http" "" user host "" false false "" "")
         end.
Proof.
  intros Hq Hs. unfold url.parse.
  destruct (url.stringContainsCTLByte ("http://" +:+ t)); [reflexivity |].
  change (String.eqb ("http://" +:+ t) "") with false.
  change (String.eqb ("http://" +:+ t) "*") with false.
  cbv iota. cbn [andb].
  rewrite getScheme_http.
  change (strings.ToLower "http") with "http".
  replace (strings.CountByte ("//" +:+ t) "?") with 0
    by (symmetry; apply CountByte_absent; exact Hq).
  rewrite andb_false_r.
  rewrite (Cut_absent "?") by exact Hq.
  cbv iota beta.
  change (strings.HasPrefix ("//" +:+ t) "/") with true.
  change (strings.HasPrefix ("//" +:+ t) "//") with true.
  change (String.eqb "http" "") with false.
  cbn [negb andb orb].
  change (strings.slice_from ("//" +:+ t) 2) with t.
  rewrite (Index_absent "/") by exact Hs.
  change (0 <=? -1) with false. cbv iota beta.
  destruct (url.parseAuthority t) as [[user host] |]; reflexivity.
Qed.

Lemma Parse_http_host_literal t u :
  strings.all authority_byte t = true ->
  url.Parse ("http://" +:+ t) = Some u ->
  url.Host u = t.
Proof.
  intros Ht.
  assert (Hno : forall x,
             (forall c, authority_byte c = true -> not_byte x c = true) ->
             strings.all (not_byte x) t = true)
    by (intros x Hx; revert Ht; by apply all_impl).
  assert (Hslash : strings.all (not_byte "/") t = true)
    by (apply Hno; intros c Hc; apply authority_byte_not_special, Hc).
  assert (Hquery : strings.all (not_byte "?") t = true)
    by (apply Hno; intros c Hc; apply authority_byte_not_special, Hc).
  assert (Hfrag : strings.all (not_byte "#") t = true)
    by (apply Hno; intros c Hc; apply authority_byte_not_special, Hc).
  assert (Hat : strings.all (not_byte "@") t = true)
    by (apply Hno; intros c Hc; apply authority_byte_not_special, Hc).
  assert (Hpct : strings.all (not_byte "%") t = true)
    by (apply Hno; intros c Hc; apply authority_byte_not_special, Hc).
  unfold url.Parse.
  rewrite (Cut_absent "#") by exact Hfrag.
  rewrite parse_http_uncut by assumption.
  destruct (url.stringContainsCTLByte _); [discriminate |].
  destruct (url.parseAuthority t) as [[user host] |] eqn:Hauth; [| discriminate].
  apply parseAuthority_literal in Hauth as [_ ->]; [| assumption ..].
  cbn. by intros [= <-].
Qed.

(** [%d] never prints one of the marks. *)
Lemma Sprintd_authority_bytes (n : Z) :
  strings.all authority_byte (fmt.Sprintd n) = true.
Proof.
  assert (Hdigit : forall c, Char.is_digit c = true -> authority_byte c = true)
    by (intros c Hc; byte_cases c).
  destruct (Z.lt_ge_cases n 0) as [Hneg | Hpos].
  - destruct (Sprintd_negative n Hneg) as (digits & -> & Hdigits).
    cbn [strings.all]. change (authority_byte "-") with true. cbn [andb].
    revert Hdigits. by apply all_impl.
  - generalize (Sprintd_digits n Hpos). by apply all_impl.
Qed.

End AuthorityFacts.

(** C2. Once [main] has a target, every request leaves the Director
    with URL scheme [http] and with URL host and Host both equal to the
    host of the parsed target, whatever its own URL and Host were.  That
    host is [ProxyHost:ProxyPort] as configured whenever [ProxyHost]
    holds none of the bytes [/ ? # @ %]; bracketed IP literals are
    covered. *)
Theorem Director_targets_parsed_upstream
    (config : main.Config) (target : url.URL) (req : http.Request.t) :
  main.parse_target config = Some target ->
  let out := main.Director target req in
  url.Scheme (http.Request.URL out) = "http"
  /\ url.Host (http.Request.URL out) = url.Host target
  /\ http.Request.Host out = url.Host target
  /\ (strings.all authority_byte (main.ProxyHost config) = true ->
      url.Host target
      = main.ProxyHost config +:+ ":" +:+ fmt.Sprintd (main.ProxyPort config)).
Proof.
  intros Hparse. cbv zeta.
  split; [exact (Parse_http_scheme _ _ Hparse) |].
  split; [reflexivity |]. split; [reflexivity |].
  intros Hhost. unfold main.parse_target, main.targetURL in Hparse.
  apply Parse_http_host_literal in Hparse; [exact Hparse |].
  rewrite all_app, Hhost. cbn [andb strings.all String.append].
  change (authority_byte ":") with true. cbn [andb].
  apply Sprintd_authority_bytes.
Qed.

Lemma Director_targets_parsed_upstream_witness :
  main.parse_target example_config = Some example_target
  /\ strings.all authority_byte (main.ProxyHost example_config) = true
  /\ url.Scheme
       (http.Request.URL (main.Director example_target example_request))
     = "http"
  /\ url.Host
       (http.Request.URL (main.Director example_target example_request))
     = "127.0.0.1:8443"
  /\ http.Request.Host (main.Director example_target example_request)
     = "127.0.0.1:8443"
  /\ url.Host example_target
     = main.ProxyHost example_config +:+ ":"
       +:+ fmt.Sprintd (main.ProxyPort example_config).
Proof.
  assert (Hparse : main.parse_target example_config = Some example_target)
    by (vm_compute; reflexivity).
  assert (Hbytes : strings.all authority_byte (main.ProxyHost example_config)
                   = true)
    by (vm_compute; reflexivity).
  split; [exact Hparse |]. split; [exact Hbytes |].
  destruct (Director_targets_parsed_upstream example_config example_target
              example_request Hparse) as (Hscheme & Hurl & Hhost & Hconf).
  split; [exact Hscheme |]. split; [exact Hurl |]. split; [exact Hhost |].
  exact (Hconf Hbytes).
Defined.

(** A configured upstream host that is not the host of the outbound
    request: with [--proxy-for-host u@h], start-up succeeds, [url.Parse]
    reads [u] as userinfo, and the Director sets both hosts to
    [h:8443], not to the configured [u@h:8443]. *)
Lemma Director_host_is_not_configured_host :
  main.run example_Stat example_userinfo_config
  = main.Return
      (main.mkServer "0.0.0.0:443" example_userinfo_target
         (15 * main.Second) (15 * main.Second) (60 * main.Second))
  /\ main.parse_target example_userinfo_config = Some example_userinfo_target
  /\ url.Host
       (http.Request.URL
          (main.Director example_userinfo_target example_request))
     = "h:8443"
  /\ http.Request.Host
       (main.Director example_userinfo_target example_request)
     = "h:8443"
  /\ main.ProxyHost example_userinfo_config +:+ ":"
       +:+ fmt.Sprintd (main.ProxyPort example_userinfo_config)
     = "u@h:8443"
  /\ http.Request.Host
       (main.Director example_userinfo_target example_request)
     ≠ main.ProxyHost example_userinfo_config +:+ ":"
       +:+ fmt.Sprintd (main.ProxyPort example_userinfo_config).
Proof.
  repeat split; try (vm_compute; reflexivity).
  vm_compute. discriminate.
Qed.

Example Parse_ipv6_literal :
  main.parse_target
    (main.mkConfig "0.0.0.0" 443 "[::1]" 8443 "cert.crt" "key.pem")
  = Some (url.mkURL "http" "" None "[::1]:8443" "" false false "" "").
Proof. vm_compute. reflexivity. Qed.

(** ** More on the hooks *)

(** X5. What the upstream reads with [Header.Get] after the Director:
    for each forwarding header, the first value the client sent when it
    sent one, and the injected value only when the client sent none. *)
Theorem Director_Get_prefers_client_value
    (target : url.URL) (req : http.Request.t) :
  let h := http.Request.Header req in
  let h' := http.Request.Header (main.Director target req) in
  http.Get h' "X-Forwarded-Host"
  = match http.values h "X-Forwarded-Host" with
    | [] => url.Host target
    | v :: _ => v
    end
  /\ http.Get h' "X-Forwarded-Proto"
     = match http.values h "X-Forwarded-Proto" with
       | [] => url.Scheme target
       | v :: _ => v
       end
  /\ http.Get h' "X-Real-IP"
     = match http.values h "X-Real-Ip" with
       | [] => http.Request.RemoteAddr req
       | v :: _ => v
       end.
Proof.
  cbv zeta. unfold http.Get.
  change (textproto.CanonicalMIMEHeaderKey "X-Forwarded-Host")
    with "X-Forwarded-Host".
  change (textproto.CanonicalMIMEHeaderKey "X-Forwarded-Proto")
    with "X-Forwarded-Proto".
  change (textproto.CanonicalMIMEHeaderKey "X-Real-IP") with "X-Real-Ip".
  rewrite Director_values_Forwarded_Host, Director_values_Forwarded_Proto,
    Director_values_Real_IP.
  repeat split;
    match goal with |- context [http.values ?h ?k] => destruct (http.values h k) end;
    reflexivity.
Qed.

(** X6. The Director never reads the inbound [Host], URL scheme or URL
    host: changing them on the request changes nothing in its result. *)
Theorem Director_ignores_inbound_host
    (target : url.URL) (req : http.Request.t)
    (host scheme urlhost : string) :
  main.Director target
    (http.Request.set_Host host
       (http.Request.set_URL
          (url.set_Scheme scheme
             (url.set_Host urlhost (http.Request.URL req))) req))
  = main.Director target req.
Proof. destruct req as [m [] p h b cl ho ra ru]. reflexivity. Qed.

(** X7. Running the rewriter on its own result returns that result: the
    response it produces is a fixed point, for every response and MIME
    table. *)
Theorem ModifyResponse_idempotent
    (TypeByExtension : string -> string) (resp : http.Response.t) :
  let once := (main.ModifyResponse TypeByExtension resp).1.1 in
  (main.ModifyResponse TypeByExtension once).1.1 = once.
Proof.
  cbv zeta. unfold main.ModifyResponse at 2 3.
  destruct (negb (String.eqb (filepath.Ext _) "")) eqn:Hext;
    [| unfold main.ModifyResponse; cbn [fst]; rewrite Hext; reflexivity].
  destruct (negb (String.eqb (TypeByExtension _) "")) eqn:Hmime;
    [| unfold main.ModifyResponse; cbn [fst]; rewrite Hext, Hmime; reflexivity].
  match goal with
  | |- context [if ?b then _ else _] => destruct b eqn:Hgen
  end.
  - cbn [fst]. unfold main.ModifyResponse.
    cbn [http.Response.Request http.Response.set_Header http.Response.Header].
    rewrite Hext, Hmime, Get_Set.
    match goal with
    | |- context [if ?b then _ else _] => destruct b
    end; cbn [fst]; [| reflexivity].
    unfold http.Response.set_Header, http.Set_. cbn.
    by rewrite insert_insert_eq.
  - cbn [fst]. unfold main.ModifyResponse. by rewrite Hext, Hmime, Hgen.
Qed.

(** X9. Whatever the response and the MIME table, the rewriter leaves
    status, body, request and every header other than [Content-Type] as
    they are, logs at most one line, and returns the response untouched
    when it logs nothing. *)
Theorem ModifyResponse_frame
    (TypeByExtension : string -> string) (resp : http.Response.t) :
  let '(resp', logs, err) := main.ModifyResponse TypeByExtension resp in
  http.Response.StatusCode resp' = http.Response.StatusCode resp
  /\ http.Response.Body resp' = http.Response.Body resp
  /\ http.Response.Request resp' = http.Response.Request resp
  /\ (forall k : string, k ≠ "Content-Type" ->
        http.Response.Header resp' !! k = http.Response.Header resp !! k)
  /\ (length logs <= 1)%nat
  /\ (logs = [] -> resp' = resp).
Proof.
  unfold main.ModifyResponse.
  repeat match goal with
         | |- context [if ?b then _ else _] => destruct b
         end; cbn; repeat split; try lia; try done.
  intros k Hk. unfold http.Set_.
  change (textproto.CanonicalMIMEHeaderKey "Content-Type") with "Content-Type".
  by rewrite lookup_insert_ne.
Qed.

(** ** The extension of the request path *)

Section ExtFacts.
Implicit Types (s pre name e path : string) (c d : ascii).

Lemma all_get p s k :
  strings.all p s = true -> (k < String.length s)%nat ->
  exists d, String.get k s = Some d /\ p d = true.
Proof.
  revert k. induction s as [| c s IH]; intros k; simpl; [lia |].
  rewrite andb_true_iff. intros [Hc Hs] Hk.
  destruct k as [| k]; [by exists c |].
  apply IH; [done | lia].
Qed.

Lemma get_app_at pre c s : String.get (String.length pre) (pre +:+ String c s) = Some c.
Proof. induction pre as [| d pre IH]; simpl; done. Qed.

Lemma get_app_after pre c s k :
  String.get (String.length pre + 1 + k) (pre +:+ String c s) = String.get k s.
Proof.
  induction pre as [| d pre IH]; [reflexivity |].
  cbn [String.length Nat.add String.append String.get]. exact IH.
Qed.

(** Scanning back from anywhere in [name], which holds no dot, down to
    the separator in front of it, finds no extension. *)
Lemma Ext_loop_no_dot pre name k :
  strings.all (not_byte ".") name = true ->
  (k <= String.length name)%nat ->
  filepath.Ext_loop (pre +:+ String "/" name) (String.length pre + 1 + k) = "".
Proof.
  intros Hname. induction k as [| k IH]; intros Hk.
  - rewrite Nat.add_0_r, Nat.add_1_r. cbn [filepath.Ext_loop].
    by rewrite get_app_at.
  - replace (String.length pre + 1 + S k)%nat
      with (S (String.length pre + 1 + k)) by lia.
    cbn [filepath.Ext_loop]. rewrite get_app_after.
    destruct (all_get _ name k Hname) as (d & -> & Hd); [lia |].
    destruct (filepath.IsPathSeparator d); [reflexivity |].
    unfold not_byte in Hd. apply negb_true_iff in Hd. rewrite Hd.
    apply IH. lia.
Qed.

Lemma Ext_no_dot pre name :
  strings.all (not_byte ".") name = true ->
  filepath.Ext (pre +:+ String "/" name) = "".
Proof.
  intros Hname. unfold filepath.Ext.
  replace (String.length (pre +:+ String "/" name))
    with (String.length pre + 1 + String.length name)%nat.
  - by apply Ext_loop_no_dot.
  - clear. induction pre as [| d pre IH]; simpl; [done | by rewrite <- IH].
Qed.

(** Scanning back through [e], which holds neither a dot nor a
    separator, stops at the dot in front of it. *)
Lemma Ext_loop_last_dot pre e k :
  strings.all (fun c => not_byte "." c && not_byte "/" c) e = true ->
  (k <= String.length e)%nat ->
  filepath.Ext_loop (pre +:+ String "." e) (String.length pre + 1 + k)
  = String "." e.
Proof.
  intros He. induction k as [| k IH]; intros Hk.
  - rewrite Nat.add_0_r, Nat.add_1_r. cbn [filepath.Ext_loop].
    rewrite get_app_at. cbn. apply drop_app_length.
  - replace (String.length pre + 1 + S k)%nat
      with (S (String.length pre + 1 + k)) by lia.
    cbn [filepath.Ext_loop]. rewrite get_app_after.
    destruct (all_get _ e k He) as (d & -> & Hd); [lia |].
    apply andb_true_iff in Hd as [Hdot Hsep].
    unfold not_byte in Hdot, Hsep. apply negb_true_iff in Hdot, Hsep.
    unfold filepath.IsPathSeparator. rewrite Hsep, Hdot.
    apply IH. lia.
Qed.

Lemma Ext_last_dot pre e :
  strings.all (fun c => not_byte "." c && not_byte "/" c) e = true ->
  filepath.Ext (pre +:+ String "." e) = String "." e.
Proof.
  intros He. unfold filepath.Ext.
  replace (String.length (pre +:+ String "." e))
    with (String.length pre + 1 + String.length e)%nat.
  - by apply Ext_loop_last_dot.
  - clear. induction pre as [| d pre IH]; simpl; [done | by rewrite <- IH].
Qed.

End ExtFacts.

(** X10. Only the last path element counts: when the path can be split
    at a slash so that nothing after that slash holds a dot (a path
    ending in a slash included), the rewriter returns the response
    untouched, however many dots stand before the slash and whatever the
    Content-Type and the MIME table are. *)
Theorem ModifyResponse_ignores_dots_in_directories
    (TypeByExtension : string -> string) (resp : http.Response.t)
    (dir name : string) :
  url.Path (http.Request.URL (http.Response.Request resp))
  = dir +:+ "/" +:+ name ->
  strings.all (not_byte ".") name = true ->
  main.ModifyResponse TypeByExtension resp = (resp, [], None).
Proof.
  intros Hpath Hname.
  apply ModifyResponse_unchanged. right; left.
  rewrite Hpath. by apply Ext_no_dot.
Qed.

Lemma ModifyResponse_ignores_dots_in_directories_witness :
  strings.all (not_byte ".") "readme" = true
  /\ main.ModifyResponse mime.builtin_TypeByExtension
       (http.Response.mk 200 (<["Content-Type" := ["text/plain"]]> ∅) "x"
          (http.Request.mk "GET"
             (url.mkURL "http" "" None "127.0.0.1:8443" "/v1.2/lib.js/readme"
                false false "" "")
             "HTTP/1.1" ∅ "" 0 "127.0.0.1:8443" "203.0.113.7:51234"
             "/v1.2/lib.js/readme"))
     = (http.Response.mk 200 (<["Content-Type" := ["text/plain"]]> ∅) "x"
          (http.Request.mk "GET"
             (url.mkURL "http" "" None "127.0.0.1:8443" "/v1.2/lib.js/readme"
                false false "" "")
             "HTTP/1.1" ∅ "" 0 "127.0.0.1:8443" "203.0.113.7:51234"
             "/v1.2/lib.js/readme"),
        [], None).
Proof.
  split; [reflexivity |].
  apply (ModifyResponse_ignores_dots_in_directories
           mime.builtin_TypeByExtension _ "/v1.2/lib.js" "readme");
    reflexivity.
Defined.

(** X11. For a path that ends in a dot followed by [ext], where [ext]
    holds neither a dot nor a slash, the rewriter looks up exactly the
    last extension [.ext]: with a generic Content-Type and a mapping for
    [.ext], the Content-Type afterwards is that mapping. *)
Theorem ModifyResponse_uses_last_extension
    (TypeByExtension : string -> string) (resp : http.Response.t)
    (stem ext : string) :
  url.Path (http.Request.URL (http.Response.Request resp))
  = stem +:+ "." +:+ ext ->
  strings.all (fun c => not_byte "." c && not_byte "/" c) ext = true ->
  generic_type (http.Get (http.Response.Header resp) "Content-Type") ->
  TypeByExtension ("." +:+ ext) ≠ "" ->
  http.Get
    (http.Response.Header (main.ModifyResponse TypeByExtension resp).1.1)
    "Content-Type"
  = TypeByExtension ("." +:+ ext).
Proof.
  intros Hpath Hext Hgen Hmime.
  assert (HExt : filepath.Ext
                   (url.Path (http.Request.URL (http.Response.Request resp)))
                 = "." +:+ ext)
    by (rewrite Hpath; by apply Ext_last_dot).
  unfold main.ModifyResponse. rewrite HExt.
  apply generic_type_test in Hgen. apply string_nonempty_test in Hmime.
  rewrite Hmime, Hgen. cbn [negb String.eqb fst]. cbn.
  apply Get_Set.
Qed.

Lemma ModifyResponse_uses_last_extension_witness :
  url.Path (http.Request.URL (http.Response.Request example_response))
  = "/app" +:+ "." +:+ "js"
  /\ generic_type
       (http.Get (http.Response.Header example_response) "Content-Type")
  /\ http.Get
       (http.Response.Header
          (main.ModifyResponse mime.builtin_TypeByExtension
             example_response).1.1)
       "Content-Type"
     = "text/javascript; charset=utf-8".
Proof.
  assert (Hgen : generic_type
                   (http.Get (http.Response.Header example_response)
                      "Content-Type"))
    by (right; left; vm_compute; reflexivity).
  split; [reflexivity |]. split; [exact Hgen |].
  rewrite (ModifyResponse_uses_last_extension mime.builtin_TypeByExtension
             example_response "/app" "js");
    [reflexivity | reflexivity | reflexivity | exact Hgen
    | vm_compute; discriminate].
Defined.

(** X12. Whenever the path has an extension that the MIME table maps,
    the Content-Type after the rewriter does not read as empty: a
    specific type stays and a generic or missing one is replaced by the
    mapping. *)
Theorem ModifyResponse_content_type_never_empty
    (TypeByExtension : string -> string) (resp : http.Response.t) :
  let ext :=
    filepath.Ext (url.Path (http.Request.URL (http.Response.Request resp))) in
  ext ≠ "" ->
  TypeByExtension ext ≠ "" ->
  http.Get
    (http.Response.Header (main.ModifyResponse TypeByExtension resp).1.1)
    "Content-Type"
  ≠ "".
Proof.
  cbv zeta. intros Hext Hmime.
  pose proof Hext as Hext'. pose proof Hmime as Hmime'.
  apply string_nonempty_test in Hext', Hmime'.
  unfold main.ModifyResponse. rewrite Hext', Hmime'.
  match goal with
  | |- context [if ?b then _ else _] => destruct b eqn:Hgen
  end; cbn [fst].
  - cbn [http.Response.set_Header http.Response.Header].
    by rewrite Get_Set.
  - intros Hempty. rewrite Hempty in Hgen. discriminate Hgen.
Qed.

Lemma ModifyResponse_content_type_never_empty_witness :
  filepath.Ext
    (url.Path (http.Request.URL (http.Response.Request example_response)))
  = ".js"
  /\ http.Get
       (http.Response.Header
          (main.ModifyResponse mime.builtin_TypeByExtension
             example_response).1.1)
       "Content-Type"
     ≠ "".
Proof.
  split; [reflexivity |].
  apply (ModifyResponse_content_type_never_empty
           mime.builtin_TypeByExtension example_response);
    vm_compute; discriminate.
Defined.

Section CopyHeaderFacts.
Implicit Types (dst src h : gmap string (list string)) (k i : string).

Lemma values_foldl_Add h i (vv : list string) k :
  http.values (foldl (fun d v => http.Add d i v) h vv) k
  = if decide (k = textproto.CanonicalMIMEHeaderKey i)
    then (http.values h k ++ vv)%list else http.values h k.
Proof.
  revert h. induction vv as [| v vv IH]; intros h; cbn [foldl].
  - case_decide; by rewrite ?app_nil_r.
  - rewrite IH. case_decide as Hk.
    + subst k. by rewrite values_Add_eq, <- app_assoc.
    + by rewrite values_Add_ne.
Qed.

Lemma canonical_keys_insert h i (vs : list string) :
  textproto.CanonicalMIMEHeaderKey i = i ->
  canonical_keys h -> canonical_keys (<[i := vs]> h).
Proof.
  intros Hi Hh k vs'. destruct (decide (k = i)) as [-> | Hne]; [done |].
  rewrite lookup_insert_ne by done. apply Hh.
Qed.

Lemma values_copyHeader dst src k :
  canonical_keys src ->
  http.values (httputil.copyHeader dst src) k
  = (http.values dst k ++ http.values src k)%list.
Proof.
  unfold httputil.copyHeader. revert k.
  apply (map_fold_weak_ind
           (fun r m => forall k, canonical_keys m ->
                         http.values r k
                         = (http.values dst k ++ http.values m k)%list)).
  - intros k _. unfold http.values at 3. rewrite lookup_empty. cbn.
    by rewrite app_nil_r.
  - intros i x m r Hfresh IH k Hcanon.
    assert (Hi : textproto.CanonicalMIMEHeaderKey i = i)
      by (apply (Hcanon i x); by rewrite lookup_insert_eq).
    assert (Hm : canonical_keys m).
    { intros j vs Hj. apply (Hcanon j vs).
      rewrite lookup_insert_ne; [done |]. intros ->. congruence. }
    rewrite values_foldl_Add, Hi, IH by done.
    case_decide as Hk.
    + subst k.
      assert (http.values m i = []) as -> by (unfold http.values; by rewrite Hfresh).
      assert (http.values (<[i := x]> m) i = x) as ->
        by (unfold http.values; by rewrite lookup_insert_eq).
      by rewrite app_nil_r.
    + assert (http.values (<[i := x]> m) k = http.values m k) as ->
        by (unfold http.values; by rewrite lookup_insert_ne).
      done.
Qed.

End CopyHeaderFacts.

(** ** The exchange, end to end *)

(** X13. End to end: when the upstream answers, with a status other
    than 101, with canonical header keys and a generic Content-Type, and
    the path the client asked for has an extension with a mapping, the
    handler logs the rewriter's line and then sends the upstream's
    status under a header whose [Content-Type] reads as the mapped type;
    after the status line it only copies the body. *)
Theorem proxy_delivers_fixed_content_type
    (env : httputil.Env) (target : url.URL)
    (TypeByExtension : string -> string) (req outreq : http.Request.t)
    (infos : list (Z * gmap string (list string))) (ans : httputil.Answer) :
  httputil.outbound (main.Director target) req = inr outreq ->
  httputil.upstream env [] outreq = httputil.mkReply infos (inr ans) ->
  httputil.StatusCode ans ≠ 101 ->
  canonical_keys (httputil.Header ans) ->
  generic_type (http.Get (httputil.Header ans) "Content-Type") ->
  filepath.Ext (url.Path (http.Request.URL req)) ≠ "" ->
  TypeByExtension (filepath.Ext (url.Path (http.Request.URL req))) ≠ "" ->
  exists (line : string) (sent : gmap string (list string))
         (rest : list httputil.call),
    httputil.calls (main.proxy target TypeByExtension env httputil.fresh req).2
    = (httputil.RoundTrip outreq :: map informational_call infos
       ++ httputil.LogLine line
          :: httputil.WriteHeader (httputil.StatusCode ans) sent :: rest)%list
    /\ http.Get sent "Content-Type"
       = TypeByExtension (filepath.Ext (url.Path (http.Request.URL req)))
    /\ Forall (fun c => is_body_call c = true) rest.
Proof.
  intros Hout Hreply Hstatus Hcanon Hgen Hext Hmime.
  destruct (proxy_relays env target TypeByExtension req outreq infos ans
              Hout Hreply Hstatus) as (rest & Hcalls & Hrest).
  pose proof (outbound_Path _ _ _ Hout) as Hpath.
  assert (Hgen' : generic_type
                    (http.Get (http.Response.Header (stripped_response ans outreq))
                       "Content-Type"))
    by (by apply removeHopByHopHeaders_generic).
  assert (Hres : main.ModifyResponse TypeByExtension (stripped_response ans outreq)
                 = (http.Response.set_Header
                      (http.Set_
                         (http.Response.Header (stripped_response ans outreq))
                         "Content-Type"
                         (TypeByExtension
                            (filepath.Ext (url.Path (http.Request.URL req)))))
                      (stripped_response ans outreq),
                    ["Fixed MIME type for " +:+ url.Path (http.Request.URL req)
                       +:+ ": "
                       +:+ http.Get
                             (http.Response.Header (stripped_response ans outreq))
                             "Content-Type"
                       +:+ " -> "
                       +:+ TypeByExtension
                             (filepath.Ext (url.Path (http.Request.URL req)))],
                    None)).
  { unfold main.ModifyResponse.
    cbn [stripped_response http.Response.Request] in *. rewrite Hpath.
    apply generic_type_test in Hgen'.
    apply string_nonempty_test in Hext, Hmime.
    cbn [stripped_response http.Response.Header] in *.
    by rewrite Hext, Hmime, Hgen'. }
  rewrite Hres in Hcalls. cbn [fst snd map app] in Hcalls.
  eexists _, _, rest. split; [exact Hcalls |]. split; [| exact Hrest].
  unfold relayed_header.
  assert (Hcopy : http.Get
                    (httputil.copyHeader ∅
                       (http.Response.Header
                          (http.Response.set_Header
                             (http.Set_
                                (http.Response.Header (stripped_response ans outreq))
                                "Content-Type"
                                (TypeByExtension
                                   (filepath.Ext
                                      (url.Path (http.Request.URL req)))))
                             (stripped_response ans outreq))))
                    "Content-Type"
                  = TypeByExtension
                      (filepath.Ext (url.Path (http.Request.URL req)))).
  { unfold http.Get. rewrite values_copyHeader.
    - unfold http.values at 1. rewrite lookup_empty. cbn [default app].
      exact (Get_Set _ "Content-Type" _).
    - cbn [http.Response.set_Header http.Response.Header stripped_response].
      apply canonical_keys_insert; [reflexivity |].
      by apply removeHopByHopHeaders_canonical. }
  destruct (0 <? _)%nat; [| exact Hcopy].
  unfold http.Get in *. rewrite values_Add_ne; [exact Hcopy |].
  vm_compute. discriminate.
Qed.

Lemma proxy_delivers_fixed_content_type_witness :
  exists outreq : http.Request.t,
    httputil.outbound (main.Director example_target) example_request
    = inr outreq
    /\ generic_type (http.Get (httputil.Header example_answer) "Content-Type")
    /\ exists (line : string) (sent : gmap string (list string))
              (rest : list httputil.call),
         httputil.calls
           (main.proxy example_target mime.builtin_TypeByExtension
              answering_env httputil.fresh example_request).2
         = (httputil.RoundTrip outreq :: httputil.LogLine line
            :: httputil.WriteHeader 200 sent :: rest)%list
         /\ http.Get sent "Content-Type" = "text/javascript; charset=utf-8"
         /\ Forall (fun c => is_body_call c = true) rest.
Proof.
  destruct (httputil.outbound (main.Director example_target) example_request)
    as [up | outreq] eqn:Hout; [vm_compute in Hout; discriminate Hout |].
  assert (Hgen : generic_type
                   (http.Get (httputil.Header example_answer) "Content-Type"))
    by (right; left; vm_compute; reflexivity).
  exists outreq. split; [reflexivity |]. split; [exact Hgen |].
  apply (proxy_delivers_fixed_content_type answering_env example_target
           mime.builtin_TypeByExtension example_request outreq []
           example_answer Hout eq_refl).
  - vm_compute. discriminate.
  - intros k vs. unfold example_answer. cbn [httputil.Header].
    rewrite !lookup_insert, lookup_empty.
    repeat case_decide; subst; done.
  - exact Hgen.
  - vm_compute. discriminate.
  - vm_compute. discriminate.
Defined.

(** X14. End to end: when the upstream answers, with a status other
    than 101, with canonical header keys, no [Connection] header, no
    announced trailer and a Content-Type that is not generic, the
    handler logs nothing and sends the upstream's status under the
    upstream's header values, key by key, except for the nine
    hop-by-hop keys, which it drops; after the status line it only
    copies the body. *)
Theorem proxy_relays_end_to_end_headers
    (env : httputil.Env) (target : url.URL)
    (TypeByExtension : string -> string) (req outreq : http.Request.t)
    (infos : list (Z * gmap string (list string))) (ans : httputil.Answer) :
  httputil.outbound (main.Director target) req = inr outreq ->
  httputil.upstream env [] outreq = httputil.mkReply infos (inr ans) ->
  httputil.StatusCode ans ≠ 101 ->
  canonical_keys (httputil.Header ans) ->
  http.values (httputil.Header ans) "Connection" = [] ->
  size (httputil.announced ans) = 0%nat ->
  ~ generic_type (http.Get (httputil.Header ans) "Content-Type") ->
  exists (sent : gmap string (list string)) (rest : list httputil.call),
    httputil.calls (main.proxy target TypeByExtension env httputil.fresh req).2
    = (httputil.RoundTrip outreq :: map informational_call infos
       ++ httputil.WriteHeader (httputil.StatusCode ans) sent :: rest)%list
    /\ (forall k : string,
          http.values sent k
          = if bool_decide (k ∈ httputil.hopHeaders) then []
            else http.values (httputil.Header ans) k)
    /\ Forall (fun c => is_body_call c = true) rest.
Proof.
  intros Hout Hreply Hstatus Hcanon Hconn Htrailer Hspec.
  destruct (proxy_relays env target TypeByExtension req outreq infos ans
              Hout Hreply Hstatus) as (rest & Hcalls & Hrest).
  assert (Hct : http.Get (http.Response.Header (stripped_response ans outreq))
                  "Content-Type"
                = http.Get (httputil.Header ans) "Content-Type").
  { unfold http.Get, http.values. cbn [stripped_response http.Response.Header].
    by rewrite removeHopByHopHeaders_no_Connection. }
  rewrite (ModifyResponse_unchanged TypeByExtension (stripped_response ans outreq))
    in Hcalls by (left; by rewrite Hct).
  cbn [fst snd map app] in Hcalls.
  eexists _, rest. split; [exact Hcalls |]. split; [| exact Hrest].
  intros k. unfold relayed_header. rewrite Htrailer. cbn [Nat.ltb Nat.leb].
  rewrite values_copyHeader
    by (by apply removeHopByHopHeaders_canonical).
  unfold http.values. rewrite lookup_empty. cbn [default app].
  cbn [stripped_response http.Response.Header].
  rewrite removeHopByHopHeaders_no_Connection by exact Hconn.
  by case_bool_decide.
Qed.

Lemma proxy_relays_end_to_end_headers_witness :
  exists outreq : http.Request.t,
    httputil.outbound (main.Director example_target) example_request
    = inr outreq
    /\ ~ generic_type
         (http.Get (httputil.Header example_json_answer) "Content-Type")
    /\ exists (sent : gmap string (list string)) (rest : list httputil.call),
         httputil.calls
           (main.proxy example_target mime.builtin_TypeByExtension
              json_env httputil.fresh example_request).2
         = (httputil.RoundTrip outreq
            :: httputil.WriteHeader 200 sent :: rest)%list
         /\ http.values sent "Content-Type" = ["application/json"]
         /\ http.values sent "Keep-Alive" = [].
Proof.
  destruct (httputil.outbound (main.Director example_target) example_request)
    as [up | outreq] eqn:Hout; [vm_compute in Hout; discriminate Hout |].
  assert (Hspec : ~ generic_type
                    (http.Get (httputil.Header example_json_answer)
                       "Content-Type"))
    by (vm_compute; intros [H | [H | H]]; discriminate H).
  exists outreq. split; [reflexivity |]. split; [exact Hspec |].
  destruct (proxy_relays_end_to_end_headers json_env example_target
              mime.builtin_TypeByExtension example_request outreq []
              example_json_answer Hout eq_refl)
    as (sent & rest & Hcalls & Hvalues & _).
  - vm_compute. discriminate.
  - intros k vs. unfold example_json_answer. cbn [httputil.Header].
    rewrite !lookup_insert, lookup_empty.
    repeat case_decide; subst; done.
  - vm_compute. reflexivity.
  - reflexivity.
  - exact Hspec.
  - exists sent, rest. split; [exact Hcalls |].
    rewrite !Hvalues. split; vm_compute; reflexivity.
Defined.
